(** * AutoWeeklyReport: a shallow embedding of [AutoWeeklyReport.py]

    The script keeps three module-level mutable objects ([stats],
    [contributors], [project_tasks]), fills them from three GitHub
    responses, and then computes a KPI, badges and a Markdown report.

    Modelling choices, all taken from the source:
    - a decoded JSON response is a value of [json]; Python's subscript,
      [.get], iteration, truthiness and [.lower()] on such values are
      modelled with the exceptions they raise;
    - the module globals are the record [state]; a stage is a function
      [state -> state * result unit]: the state that comes back with
      [Raise] holds the mutations done before the exception;
    - Python [int] is [Z]; Python [float] values are the rationals they
      denote ([Q]).  Every weight of the script is a multiple of 1/2,
      so binary64 arithmetic is exact on every value it computes below
      2^52;
    - [str] is [string], the bytes of the text in UTF-8; the substring
      test and the order of strings are the same on bytes and on code
      points; [str.lower] and [\d] are modelled on ASCII characters;
    - [dateutil.parser.parse], [strftime] and the clock are external to
      the script and are parameters of the development. *)

From Stdlib Require Import ZArith QArith Qround List String Ascii Bool Lia Lqa.
From Stdlib Require Import ListSet Sorted Permutation.
From Stdlib Require Import DecimalString DecimalZ DecimalN DecimalFacts.
Import ListNotations.

Open Scope string_scope.
Open Scope Z_scope.

(** ** Python strings *)

Module PyStr.

Definition is_upper (c : ascii) : bool :=
  let n := nat_of_ascii c in (65 <=? n)%nat && (n <=? 90)%nat.

Definition lower_ascii (c : ascii) : ascii :=
  if is_upper c then ascii_of_nat (nat_of_ascii c + 32) else c.

(** [s.lower()].  Only the letters A to Z change.  Outside ASCII, the
    lower-casing of Python gives an ASCII letter for two characters
    only: U+0130, which becomes [i] followed by U+0307, and U+212A,
    which becomes [k]; neither can complete one of the words that
    [get_commits] looks for, so the classification is the same. *)
Fixpoint lower (s : string) : string :=
  match s with
  | EmptyString => EmptyString
  | String c s' => String (lower_ascii c) (lower s')
  end.

(** [s.startswith(p)] *)
Definition startswith (p s : string) : bool := String.prefix p s.

(** [sub in s] *)
Fixpoint contains (sub s : string) : bool :=
  startswith sub s ||
  match s with
  | EmptyString => false
  | String _ s' => contains sub s'
  end.

Definition is_digit (c : ascii) : bool :=
  let n := nat_of_ascii c in (48 <=? n)%nat && (n <=? 57)%nat.

(** The longest prefix of digits, and what follows it. *)
Fixpoint take_digits (s : string) : string * string :=
  match s with
  | EmptyString => (EmptyString, EmptyString)
  | String c s' =>
      if is_digit c
      then let (d, r) := take_digits s' in (String c d, r)
      else (EmptyString, s)
  end.

(** [re.findall(r'\d+', s)]: the maximal runs of digits, left to
    right.  [cur] is the run being read, in reading order. *)
Fixpoint findall_digits_from (cur : string) (s : string) : list string :=
  match s with
  | EmptyString =>
      match cur with EmptyString => [] | _ => [cur] end
  | String c s' =>
      if is_digit c
      then findall_digits_from (cur ++ String c EmptyString) s'
      else match cur with
           | EmptyString => findall_digits_from EmptyString s'
           | _ => cur :: findall_digits_from EmptyString s'
           end
  end.

Definition findall_digits (s : string) : list string :=
  findall_digits_from EmptyString s.

Definition digit_value (c : ascii) : Z := Z.of_nat (nat_of_ascii c - 48).

(** [int(s)] for a run of digits [s]. *)
Fixpoint int_of_digits_from (acc : Z) (s : string) : Z :=
  match s with
  | EmptyString => acc
  | String c s' => int_of_digits_from (10 * acc + digit_value c) s'
  end.

Definition int_of_digits (s : string) : Z := int_of_digits_from 0 s.

(** [str(n)] for an integer. *)
Definition str_of_Z (n : Z) : string := NilEmpty.string_of_int (Z.to_int n).

(** The lines of a text file as [for line in f] yields them: each
    line keeps its newline, the last one may lack it.  The reports are
    written with the newline alone as line end. *)
Fixpoint lines_from (cur : string) (s : string) : list string :=
  match s with
  | EmptyString =>
      match cur with EmptyString => [] | _ => [cur] end
  | String c s' =>
      if Ascii.eqb c "010"%char
      then (cur ++ String c EmptyString) :: lines_from EmptyString s'
      else lines_from (cur ++ String c EmptyString) s'
  end.

Definition lines (s : string) : list string := lines_from EmptyString s.

End PyStr.

(** ** Python values and exceptions *)

#[local] Set Warnings "-register-all".

(** What [response.json()] returns.  [JObj] lists the items of the
    [dict] in its order, one per key. *)
Inductive json : Type :=
| JNull
| JBool (b : bool)
| JNum (n : Z)
| JStr (s : string)
| JList (items : list json)
| JObj (fields : list (string * json)).

Inductive exn : Type :=
| TypeError | KeyError | AttributeError | IndexError | ValueError | OSError.

Inductive result (A : Type) : Type :=
| Ok (a : A)
| Raise (e : exn).
Arguments Ok {A} a.
Arguments Raise {A} e.

Definition rbind {A B} (r : result A) (k : A -> result B) : result B :=
  match r with
  | Ok a => k a
  | Raise e => Raise e
  end.

Notation "'do' x <- e ; k" := (rbind e (fun x => k))
  (at level 10, x name, e at level 100, k at level 200).

Module Py.

(** [bool(v)] *)
Definition truthy (v : json) : bool :=
  match v with
  | JNull => false
  | JBool b => b
  | JNum n => negb (n =? 0)
  | JStr s => negb (String.eqb s "")
  | JList l => match l with [] => false | _ => true end
  | JObj f => match f with [] => false | _ => true end
  end.

Fixpoint assoc {A} (k : string) (l : list (string * A)) : option A :=
  match l with
  | [] => None
  | (k', v) :: l' => if String.eqb k k' then Some v else assoc k l'
  end.

(** [v[k]] for a string [k] *)
Definition subscript (v : json) (k : string) : result json :=
  match v with
  | JObj f => match assoc k f with Some x => Ok x | None => Raise KeyError end
  | _ => Raise TypeError
  end.

(** [v.get(k, default)] *)
Definition get (v : json) (k : string) (default : json) : result json :=
  match v with
  | JObj f => match assoc k f with Some x => Ok x | None => Ok default end
  | _ => Raise AttributeError
  end.

(** [v.lower()] *)
Definition str_lower (v : json) : result string :=
  match v with
  | JStr s => Ok (PyStr.lower s)
  | _ => Raise AttributeError
  end.

Fixpoint chars (s : string) : list json :=
  match s with
  | EmptyString => []
  | String c s' => JStr (String c EmptyString) :: chars s'
  end.

(** The values [for x in v] goes through: the items of a list, the
    keys of a dict, the characters of a string. *)
Definition iter (v : json) : result (list json) :=
  match v with
  | JList l => Ok l
  | JObj f => Ok (map (fun kv => JStr (fst kv)) f)
  | JStr s => Ok (chars s)
  | _ => Raise TypeError
  end.

(** Dictionary keys: the hashable values a response can hold.  [True]
    and [1] are the same key, as in Python. *)
Inductive key : Type :=
| KNone
| KInt (n : Z)
| KStr (s : string).

Definition key_eqb (a b : key) : bool :=
  match a, b with
  | KNone, KNone => true
  | KInt m, KInt n => m =? n
  | KStr s, KStr t => String.eqb s t
  | _, _ => false
  end.

Definition to_key (v : json) : result key :=
  match v with
  | JNull => Ok KNone
  | JBool b => Ok (KInt (if b then 1 else 0))
  | JNum n => Ok (KInt n)
  | JStr s => Ok (KStr s)
  | JList _ | JObj _ => Raise TypeError
  end.

End Py.

(** ** The module globals *)

(** [stats] *)
Record Stats : Type := mkStats {
  stats_add : Z;
  stats_fix : Z;
  stats_refactor : Z;
  stats_other_commits : Z;
  stats_issues_opened : Z;
  stats_issues_closed : Z;
  stats_bugs_closed : Z;
  stats_tasks_completed : Z
}.

(** A value of [contributors]; [active_days] is a set of dates, each
    date being its day number. *)
Record Contributor : Type := mkContributor {
  kpi : Q;
  bug_fixes : Z;
  total_actions : Z;
  add_commits : Z;
  refactor_commits : Z;
  active_days : set Z
}.

(** An entry of [project_tasks] *)
Record ProjectTask : Type := mkTask {
  task_title : json;
  task_status : string;
  task_updated : string
}.

(** What the script prints when a stage gives up. *)
Inductive diagnostic : Type :=
| CommitsApiError (response : json)
| ProjectTasksError (e : exn).

(** A [dict] keeps its keys in insertion order, and [max] and the
    report go through it in that order: it is an association list with
    one entry per key. *)
Definition dict (V : Type) : Type := list (Py.key * V).

Record state : Type := mkState {
  stats : Stats;
  contributors : dict Contributor;
  project_tasks : list ProjectTask;
  stdout : list diagnostic
}.

(** The [lambda] of the [defaultdict] *)
Definition default_contributor : Contributor :=
  mkContributor 0%Q 0 0 0 0 (empty_set Z).

Definition initial_stats : Stats := mkStats 0 0 0 0 0 0 0 0.

Definition initial_state : state := mkState initial_stats [] [] [].

Module Dict.

Fixpoint lookup {V} (k : Py.key) (d : dict V) : option V :=
  match d with
  | [] => None
  | (k', v) :: d' => if Py.key_eqb k k' then Some v else lookup k d'
  end.

(** [d[k] = f(d[k])] on a [defaultdict]: a missing key is first
    created with the default value, at the end. *)
Fixpoint modify {V} (default : V) (k : Py.key) (f : V -> V) (d : dict V)
  : dict V :=
  match d with
  | [] => [(k, f default)]
  | (k', v) :: d' =>
      if Py.key_eqb k k' then (k', f v) :: d'
      else (k', v) :: modify default k f d'
  end.

Definition keys {V} (d : dict V) : list Py.key := map fst d.

End Dict.

(** ** Field updates *)

Definition incr_add (s : Stats) : Stats :=
  mkStats (stats_add s + 1) (stats_fix s) (stats_refactor s)
    (stats_other_commits s) (stats_issues_opened s) (stats_issues_closed s)
    (stats_bugs_closed s) (stats_tasks_completed s).

Definition incr_fix (s : Stats) : Stats :=
  mkStats (stats_add s) (stats_fix s + 1) (stats_refactor s)
    (stats_other_commits s) (stats_issues_opened s) (stats_issues_closed s)
    (stats_bugs_closed s) (stats_tasks_completed s).

Definition incr_refactor (s : Stats) : Stats :=
  mkStats (stats_add s) (stats_fix s) (stats_refactor s + 1)
    (stats_other_commits s) (stats_issues_opened s) (stats_issues_closed s)
    (stats_bugs_closed s) (stats_tasks_completed s).

Definition incr_other_commits (s : Stats) : Stats :=
  mkStats (stats_add s) (stats_fix s) (stats_refactor s)
    (stats_other_commits s + 1) (stats_issues_opened s) (stats_issues_closed s)
    (stats_bugs_closed s) (stats_tasks_completed s).

Definition incr_issues_opened (s : Stats) : Stats :=
  mkStats (stats_add s) (stats_fix s) (stats_refactor s)
    (stats_other_commits s) (stats_issues_opened s + 1) (stats_issues_closed s)
    (stats_bugs_closed s) (stats_tasks_completed s).

Definition incr_issues_closed (s : Stats) : Stats :=
  mkStats (stats_add s) (stats_fix s) (stats_refactor s)
    (stats_other_commits s) (stats_issues_opened s) (stats_issues_closed s + 1)
    (stats_bugs_closed s) (stats_tasks_completed s).

Definition incr_bugs_closed (s : Stats) : Stats :=
  mkStats (stats_add s) (stats_fix s) (stats_refactor s)
    (stats_other_commits s) (stats_issues_opened s) (stats_issues_closed s)
    (stats_bugs_closed s + 1) (stats_tasks_completed s).

Definition incr_tasks_completed (s : Stats) : Stats :=
  mkStats (stats_add s) (stats_fix s) (stats_refactor s)
    (stats_other_commits s) (stats_issues_opened s) (stats_issues_closed s)
    (stats_bugs_closed s) (stats_tasks_completed s + 1).

Definition add_kpi (w : Q) (c : Contributor) : Contributor :=
  mkContributor (kpi c + w) (bug_fixes c) (total_actions c) (add_commits c)
    (refactor_commits c) (active_days c).

Definition incr_bug_fixes (c : Contributor) : Contributor :=
  mkContributor (kpi c) (bug_fixes c + 1) (total_actions c) (add_commits c)
    (refactor_commits c) (active_days c).

Definition incr_total_actions (c : Contributor) : Contributor :=
  mkContributor (kpi c) (bug_fixes c) (total_actions c + 1) (add_commits c)
    (refactor_commits c) (active_days c).

Definition incr_add_commits (c : Contributor) : Contributor :=
  mkContributor (kpi c) (bug_fixes c) (total_actions c) (add_commits c + 1)
    (refactor_commits c) (active_days c).

Definition incr_refactor_commits (c : Contributor) : Contributor :=
  mkContributor (kpi c) (bug_fixes c) (total_actions c) (add_commits c)
    (refactor_commits c + 1) (active_days c).

(** [active_days.add(d)] *)
Definition add_active_day (d : Z) (c : Contributor) : Contributor :=
  mkContributor (kpi c) (bug_fixes c) (total_actions c) (add_commits c)
    (refactor_commits c) (set_add Z.eq_dec d (active_days c)).

(** ** Statements that mutate the globals and may raise *)

Definition M (A : Type) : Type := state -> state * result A.

Definition ret {A} (a : A) : M A := fun st => (st, Ok a).

Definition bind {A B} (m : M A) (k : A -> M B) : M B :=
  fun st =>
    match m st with
    | (st', Ok a) => k a st'
    | (st', Raise e) => (st', Raise e)
    end.

Definition lift {A} (r : result A) : M A := fun st => (st, r).

Notation "x <- m ;; k" := (bind m (fun x => k))
  (at level 61, m at next level, right associativity).
Notation "m ;; k" := (bind m (fun _ => k))
  (at level 61, right associativity).

(** [stats[...] += 1] *)
Definition update_stats (f : Stats -> Stats) : M unit :=
  fun st =>
    (mkState (f (stats st)) (contributors st) (project_tasks st) (stdout st),
     Ok tt).

(** [contributors[author][...] = f(...)]: the key is hashed first, so
    an unhashable [author] raises before anything is stored. *)
Definition update_contributor (author : json) (f : Contributor -> Contributor)
  : M unit :=
  fun st =>
    match Py.to_key author with
    | Raise e => (st, Raise e)
    | Ok k =>
        (mkState (stats st)
           (Dict.modify default_contributor k f (contributors st))
           (project_tasks st) (stdout st),
         Ok tt)
    end.

(** [project_tasks.append(t)] *)
Definition append_task (t : ProjectTask) : M unit :=
  fun st =>
    (mkState (stats st) (contributors st) (project_tasks st ++ [t]) (stdout st),
     Ok tt).

(** [print(...)] of a diagnostic *)
Definition print (d : diagnostic) : M unit :=
  fun st =>
    (mkState (stats st) (contributors st) (project_tasks st) (stdout st ++ [d]),
     Ok tt).

(** [for x in xs: body(x)] *)
Fixpoint for_each {A} (xs : list A) (body : A -> M unit) : M unit :=
  match xs with
  | [] => ret tt
  | x :: xs' => body x ;; for_each xs' body
  end.

(** [try: body except Exception as e: handler(e)] *)
Definition try_except (body : M unit) (handler : exn -> M unit) : M unit :=
  fun st =>
    match body st with
    | (st', Ok tt) => (st', Ok tt)
    | (st', Raise e) => handler e st'
    end.

(** ** The three aggregation stages *)

(** What [dateutil.parser.parse] gives for a timestamp: the instant it
    denotes, in microseconds of absolute time, and the day number of
    its calendar date in the timestamp's own offset. *)
Record datetime : Type := mkDatetime {
  instant : Z;
  local_day : Z
}.

(** [timedelta(days=7)], in microseconds *)
Definition seven_days : Z := 7 * 86400 * 1000000.

Section Stages.

(** [now], as an instant *)
Variable now : Z.

(** [dateutil.parser.parse] on a string; [None] when it rejects it *)
Variable parse : string -> option datetime.

(** [strftime('%Y-%m-%d %H:%M')] of an instant seen in UTC *)
Variable strftime : Z -> string.

(** [parse(v)]: a value that is no string is a [TypeError], a string
    that is no timestamp a [ParserError], which is a [ValueError]. *)
Definition py_parse (v : json) : result datetime :=
  match v with
  | JStr s => match parse s with Some d => Ok d | None => Raise ValueError end
  | _ => Raise TypeError
  end.

(** [t >= now - timedelta(days=7)] *)
Definition in_window (t : datetime) : bool := now - seven_days <=? instant t.

(** *** 1. Commits *)

(** The body of the loop of [get_commits]. *)
Definition classify_commit (commit : json) : M unit :=
  c <- lift (Py.subscript commit "commit") ;;
  m <- lift (Py.subscript c "message") ;;
  msg <- lift (Py.str_lower m) ;;
  a <- lift (Py.subscript c "author") ;;
  author <- lift (if Py.truthy a then Py.subscript a "name"
                  else Ok (JStr "Unknown")) ;;
  ds <- lift (Py.subscript a "date") ;;
  dt <- lift (py_parse ds) ;;
  let date := local_day dt in
  (if PyStr.contains "fix" msg then
     update_stats incr_fix ;;
     update_contributor author (add_kpi (5 # 2)) ;;
     update_contributor author incr_bug_fixes
   else if PyStr.contains "add" msg || PyStr.contains "enhancement" msg then
     update_stats incr_add ;;
     update_contributor author (add_kpi 2) ;;
     update_contributor author incr_add_commits
   else if PyStr.contains "refactor" msg then
     update_stats incr_refactor ;;
     update_contributor author (add_kpi 1) ;;
     update_contributor author incr_refactor_commits
   else
     update_stats incr_other_commits ;;
     update_contributor author (add_kpi 1)) ;;
  update_contributor author incr_total_actions ;;
  update_contributor author (add_active_day date).

(** [get_commits], from the decoded response on. *)
Definition get_commits (response : json) : M unit :=
  match response with
  | JList commits => for_each commits classify_commit
  | _ => print (CommitsApiError response)
  end.

(** *** 2. Issues *)

(** [any(label['name'].lower() == 'bug' for label in labels)]: stops
    at the first label that is a bug. *)
Fixpoint any_bug (labels : list json) : result bool :=
  match labels with
  | [] => Ok false
  | label :: labels' =>
      do n <- Py.subscript label "name";
      do s <- Py.str_lower n;
      if String.eqb s "bug" then Ok true else any_bug labels'
  end.

(** The body of the loop of [get_issues]. *)
Definition count_issue (issue : json) : M unit :=
  cs <- lift (Py.subscript issue "created_at") ;;
  created <- lift (py_parse cs) ;;
  c <- lift (Py.get issue "closed_at" JNull) ;;
  closed_at <- lift (if Py.truthy c
                     then do x <- Py.subscript issue "closed_at";
                          do t <- py_parse x;
                          Ok (Some t)
                     else Ok None) ;;
  ls <- lift (Py.get issue "labels" (JList [])) ;;
  labels <- lift (Py.iter ls) ;;
  is_bug <- lift (any_bug labels) ;;
  (if in_window created then update_stats incr_issues_opened else ret tt) ;;
  match closed_at with
  | Some t =>
      if in_window t then
        update_stats incr_issues_closed ;;
        (if is_bug then update_stats incr_bugs_closed else ret tt) ;;
        u <- lift (Py.subscript issue "user") ;;
        author <- lift (Py.subscript u "login") ;;
        update_contributor author (add_kpi 2) ;;
        update_contributor author incr_total_actions
      else ret tt
  | None => ret tt
  end.

(** [get_issues], from the decoded response on.  There is no test on
    the shape of the response: the loop goes through whatever it is. *)
Definition get_issues (response : json) : M unit :=
  issues <- lift (Py.iter response) ;;
  for_each issues count_issue.

(** *** 3. Project tasks *)

(** The loop that fills [status_list]. *)
Fixpoint collect_statuses (fields : list json) (status_list : list string)
  : result (list string) :=
  match fields with
  | [] => Ok status_list
  | field :: fields' =>
      do name <- Py.get field "name" JNull;
      do text <- Py.get field "text" JNull;
      if Py.truthy name then
        do s <- Py.str_lower name;
        collect_statuses fields' (status_list ++ [s])
      else if Py.truthy text then
        do s <- Py.str_lower text;
        collect_statuses fields' (status_list ++ [s])
      else collect_statuses fields' status_list
  end.

(** [any(status in ['done', 'completed'] for status in status_list)] *)
Definition any_done (status_list : list string) : bool :=
  existsb (fun status => String.eqb status "done"
                         || String.eqb status "completed") status_list.

(** The body of the loop of [get_project_tasks]. *)
Definition collect_task (item : json) : M unit :=
  us <- lift (Py.subscript item "updatedAt") ;;
  updated <- lift (py_parse us) ;;
  c <- lift (Py.get item "content" JNull) ;;
  title <- lift (if Py.truthy c
                 then do c' <- Py.subscript item "content";
                      Py.get c' "title" (JStr "Untitled")
                 else Ok (JStr "Untitled")) ;;
  fv <- lift (Py.subscript item "fieldValues") ;;
  ns <- lift (Py.subscript fv "nodes") ;;
  fields <- lift (Py.iter ns) ;;
  status_list <- lift (collect_statuses fields []) ;;
  if in_window updated then
    (if any_done status_list
     then update_stats incr_tasks_completed else ret tt) ;;
    append_task (mkTask title
                   (match status_list with
                    | s :: _ => s
                    | [] => "unknown"
                    end)
                   (strftime (instant updated)))
  else ret tt.

(** [get_project_tasks], from the decoded response on. *)
Definition get_project_tasks (data : json) : M unit :=
  try_except
    (d <- lift (Py.subscript data "data") ;;
     u <- lift (Py.subscript d "user") ;;
     p <- lift (Py.subscript u "projectV2") ;;
     i <- lift (Py.subscript p "items") ;;
     ns <- lift (Py.subscript i "nodes") ;;
     items <- lift (Py.iter ns) ;;
     for_each items collect_task)
    (fun e => print (ProjectTasksError e)).

End Stages.

(** ** 4. The global KPI *)

Definition calculate_kpi (st : state) : Q :=
  (2 * inject_Z (stats_add (stats st))
   + (5 # 2) * inject_Z (stats_fix (stats st))
   + 2 * inject_Z (stats_bugs_closed (stats st))
   + 3 * inject_Z (stats_tasks_completed (stats st)))%Q.

(** ** 5. The KPI of the previous week *)

Module Re.

(** [re.search(r'\*\*(\d+(?:\.\d+)?)\*\*', s)] tried at the start of
    [s] only; the result is group 1.  The greedy [\d+] never gives a
    digit back with success, since what follows it in the pattern
    starts with a dot or a star; so one attempt per position decides. *)
Definition bold_decimal_at (s : string) : option string :=
  match s with
  | String "*" (String "*" r) =>
      let (d, r1) := PyStr.take_digits r in
      match d with
      | EmptyString => None
      | _ =>
          match r1 with
          | String "." r2 =>
              let (f, r3) := PyStr.take_digits r2 in
              match f with
              | EmptyString => None
              | _ => if PyStr.startswith "**" r3
                     then Some (d ++ "." ++ f) else None
              end
          | _ => if PyStr.startswith "**" r1 then Some d else None
          end
      end
  | _ => None
  end.

(** The leftmost match. *)
Fixpoint search_bold_decimal (s : string) : option string :=
  match bold_decimal_at s with
  | Some g => Some g
  | None =>
      match s with
      | EmptyString => None
      | String _ s' => search_bold_decimal s'
      end
  end.

End Re.

(** [float(s)] for [s] of the shape [\d+(\.\d+)?], as the rational it
    writes, in lowest terms. *)
Definition float_of_decimal (s : string) : Q :=
  let (i, r) := PyStr.take_digits s in
  match r with
  | String "." f =>
      Qred (PyStr.int_of_digits (i ++ f)
            # Z.to_pos (10 ^ Z.of_nat (String.length f)))
  | _ => inject_Z (PyStr.int_of_digits i)
  end.

(** [sorted(names, reverse=True)] *)
Fixpoint insert_desc (x : string) (l : list string) : list string :=
  match l with
  | [] => [x]
  | y :: l' => if String.leb y x then x :: l else y :: insert_desc x l'
  end.

Definition sorted_reverse (l : list string) : list string :=
  fold_right insert_desc [] l.

(** The loop over the lines of one report: the first line that holds
    the marker and a bold decimal decides. *)
Fixpoint scan_lines (ls : list string) : option Q :=
  match ls with
  | [] => None
  | line :: ls' =>
      if PyStr.contains "This Week KPI:" line then
        match Re.search_bold_decimal line with
        | Some g => Some (float_of_decimal g)
        | None => scan_lines ls'
        end
      else scan_lines ls'
  end.

(** [int(re.findall(r'\d+', fname)[-1])] *)
Definition week_of (fname : string) : result Z :=
  match rev (PyStr.findall_digits fname) with
  | run :: _ => Ok (PyStr.int_of_digits run)
  | [] => Raise IndexError
  end.

(** The directory [reports]: the text of each file under its name. *)
Definition directory : Type := list (string * string).

(** The loop over [report_files]. *)
Fixpoint scan_reports (dir : directory) (current_week : Z)
  (report_files : list string) : result Q :=
  match report_files with
  | [] => Ok 0%Q
  | fname :: rest =>
      do week_num <- week_of fname;
      if week_num <? current_week then
        match Py.assoc fname dir with
        | None => Raise OSError
        | Some text =>
            match scan_lines (PyStr.lines text) with
            | Some v => Ok v
            | None => scan_reports dir current_week rest
            end
        end
      else scan_reports dir current_week rest
  end.

(** [get_previous_week_kpi]; [reports_dir] is [None] when the directory
    does not exist, [current_week] is [now.isocalendar()[1]]. *)
Definition get_previous_week_kpi (reports_dir : option directory)
  (current_week : Z) : result Q :=
  match reports_dir with
  | None => Ok 0%Q
  | Some dir =>
      let report_files :=
        sorted_reverse
          (filter (PyStr.startswith "Weekly_Report_Week_") (map fst dir)) in
      scan_reports dir current_week report_files
  end.

(** ** 6. Badges *)

(** [max(items, key=key, default=None)]: the first item whose key is
    the greatest. *)
Fixpoint max_from {A K} (gtb : K -> K -> bool) (key : A -> K) (best : A)
  (l : list A) : A :=
  match l with
  | [] => best
  | x :: l' =>
      if gtb (key x) (key best) then max_from gtb key x l'
      else max_from gtb key best l'
  end.

Definition py_max {A K} (gtb : K -> K -> bool) (key : A -> K) (l : list A)
  : option A :=
  match l with
  | [] => None
  | x :: l' => Some (max_from gtb key x l')
  end.

Definition Qgtb (a b : Q) : bool := negb (Qle_bool a b).

(** [badges[k].append(b)] on the [defaultdict(list)] *)
Definition award (k : Py.key) (b : string) (badges : dict (list string))
  : dict (list string) :=
  Dict.modify [] k (fun l => (l ++ [b])%list) badges.

(** The last loop of [assign_badges]. *)
Fixpoint award_consistent (cs : dict Contributor) (badges : dict (list string))
  : dict (list string) :=
  match cs with
  | [] => badges
  | (contributor, data) :: cs' =>
      award_consistent cs'
        (if 3 <=? Z.of_nat (List.length (active_days data))
         then award contributor "Consistent Contributor" badges
         else badges)
  end.

Definition assign_badges (st : state) : dict (list string) :=
  let cs := contributors st in
  match cs with
  | [] => []
  | _ =>
      let badges := [] in
      let badges :=
        match py_max Qgtb (fun x => kpi (snd x)) cs with
        | Some top => award (fst top) "Top Contributor" badges
        | None => badges
        end in
      let badges :=
        match py_max Z.gtb (fun x => bug_fixes (snd x)) cs with
        | Some bug =>
            if bug_fixes (snd bug) >? 0
            then award (fst bug) "Bug Squasher" badges else badges
        | None => badges
        end in
      let badges :=
        match py_max Z.gtb (fun x => total_actions (snd x)) cs with
        | Some active => award (fst active) "Most Active" badges
        | None => badges
        end in
      let badges :=
        match py_max Z.gtb (fun x => add_commits (snd x)) cs with
        | Some feature =>
            if add_commits (snd feature) >? 0
            then award (fst feature) "Feature Creator" badges else badges
        | None => badges
        end in
      let badges :=
        match py_max Z.gtb (fun x => refactor_commits (snd x)) cs with
        | Some refactor =>
            if refactor_commits (snd refactor) >? 0
            then award (fst refactor) "Code Refactorer" badges else badges
        | None => badges
        end in
      award_consistent cs badges
  end.

(** [badges.get(contributor, [])] *)
Definition badges_of (badges : dict (list string)) (k : Py.key) : list string :=
  match Dict.lookup k badges with
  | Some l => l
  | None => []
  end.

(** ** 7. The line of the report that the next run reads back *)

(** [str(x)] for a float [x] that is a multiple of 1/2 below 10^16:
    the integer part, a dot, and [0] or [5]. *)
Definition str_of_float (x : Q) : string :=
  let h := Qfloor (2 * x) in
  (if h <? 0 then "-" else "")
  ++ PyStr.str_of_Z (Z.abs h / 2) ++ "."
  ++ (if Z.even h then "0" else "5").

(** [f"- This Week KPI: **{kpi_score}**\n"] *)
Definition kpi_line (kpi_score : Q) : string :=
  "- This Week KPI: **" ++ str_of_float kpi_score ++ "**" ++ String "010" "".

(** [f'reports/Weekly_Report_Week_{week_number}.md'], inside [reports] *)
Definition report_filename (week_number : Z) : string :=
  "Weekly_Report_Week_" ++ PyStr.str_of_Z week_number ++ ".md".

(** ** Shapes of strings *)

(** Every character is a digit. *)
Fixpoint all_digits (s : string) : bool :=
  match s with
  | EmptyString => true
  | String c s' => PyStr.is_digit c && all_digits s'
  end.

(** No character is a newline. *)
Fixpoint no_newline (s : string) : bool :=
  match s with
  | EmptyString => true
  | String c s' => negb (Ascii.eqb c "010"%char) && no_newline s'
  end.

(** ** The classification rules, as the specification words them *)

Inductive commit_class : Type :=
| FixCommit | AddCommit | RefactorCommit | OtherCommit.

(** First match wins: fix, then add or enhancement, then refactor. *)
Definition classify (message : string) : commit_class :=
  let msg := PyStr.lower message in
  if PyStr.contains "fix" msg then FixCommit
  else if PyStr.contains "add" msg then AddCommit
  else if PyStr.contains "enhancement" msg then AddCommit
  else if PyStr.contains "refactor" msg then RefactorCommit
  else OtherCommit.

(** The global counter of a class, one up. *)
Definition bump (cls : commit_class) (s : Stats) : Stats :=
  match cls with
  | FixCommit => incr_fix s
  | AddCommit => incr_add s
  | RefactorCommit => incr_refactor s
  | OtherCommit => incr_other_commits s
  end.

(** What a commit of class [cls] made on day [d] adds to its author. *)
Definition credit (cls : commit_class) (d : Z) (r : Contributor) : Contributor :=
  match cls with
  | FixCommit =>
      mkContributor (kpi r + (5 # 2)) (bug_fixes r + 1) (total_actions r + 1)
        (add_commits r) (refactor_commits r) (set_add Z.eq_dec d (active_days r))
  | AddCommit =>
      mkContributor (kpi r + 2) (bug_fixes r) (total_actions r + 1)
        (add_commits r + 1) (refactor_commits r)
        (set_add Z.eq_dec d (active_days r))
  | RefactorCommit =>
      mkContributor (kpi r + 1) (bug_fixes r) (total_actions r + 1)
        (add_commits r) (refactor_commits r + 1)
        (set_add Z.eq_dec d (active_days r))
  | OtherCommit =>
      mkContributor (kpi r + 1) (bug_fixes r) (total_actions r + 1)
        (add_commits r) (refactor_commits r)
        (set_add Z.eq_dec d (active_days r))
  end.

(** The record of a contributor, as [contributors[k]] would give it. *)
Definition record_of (k : Py.key) (d : dict Contributor) : Contributor :=
  match Dict.lookup k d with
  | Some r => r
  | None => default_contributor
  end.

(** ** Runs of the stages *)

Definition nonneg_stats (s : Stats) : Prop :=
  0 <= stats_add s /\ 0 <= stats_fix s /\ 0 <= stats_refactor s
  /\ 0 <= stats_other_commits s /\ 0 <= stats_issues_opened s
  /\ 0 <= stats_issues_closed s /\ 0 <= stats_bugs_closed s
  /\ 0 <= stats_tasks_completed s.

Definition nonneg_contributor (c : Contributor) : Prop :=
  (0 <= kpi c)%Q /\ 0 <= bug_fixes c /\ 0 <= total_actions c
  /\ 0 <= add_commits c /\ 0 <= refactor_commits c.

Definition nonneg_state (st : state) : Prop :=
  nonneg_stats (stats st)
  /\ Forall (fun kv => nonneg_contributor (snd kv)) (contributors st).

(** One entry per key, which a Python [dict] has by construction. *)
Definition keys_unique (st : state) : Prop :=
  NoDup (Dict.keys (contributors st)).

(** A statement keeps [P] when the state it leaves satisfies [P],
    whether it returns or raises. *)
Definition preserves {A} (P : state -> Prop) (m : M A) : Prop :=
  forall st, P st -> P (fst (m st)).

Section Runs.

Variable now : Z.
Variable parse : string -> option datetime.
Variable strftime : Z -> string.

(** One stage, on any response, run to its return or to the
    exception that leaves it. *)
Inductive stage_step : state -> state -> Prop :=
| step_commits (response : json) (st : state) :
    stage_step st (fst (get_commits parse response st))
| step_issues (response : json) (st : state) :
    stage_step st (fst (get_issues now parse response st))
| step_project_tasks (data : json) (st : state) :
    stage_step st (fst (get_project_tasks now parse strftime data st)).

Inductive reachable : state -> Prop :=
| reach_initial : reachable initial_state
| reach_step (st st' : state) :
    reachable st -> stage_step st st' -> reachable st'.

End Runs.

(** ** The retrieval of the previous KPI, in words *)

(** The order of [sorted(..., reverse=True)]: each name is at least
    the next one. *)
Definition descending (a b : string) : Prop := String.leb b a = true.

(** The names the retrieval goes through, in its order. *)
Definition report_files (dir : directory) : list string :=
  sorted_reverse
    (filter (PyStr.startswith "Weekly_Report_Week_") (map fst dir)).

(** The week number in the name is before the current week. *)
Definition week_before (current_week : Z) (fname : string) : bool :=
  match week_of fname with
  | Ok week_num => week_num <? current_week
  | Raise _ => false
  end.

(** The value of the first line of a report that holds the marker and
    a bold decimal, if there is one. *)
Definition kpi_in (dir : directory) (fname : string) : option Q :=
  match Py.assoc fname dir with
  | Some text => scan_lines (PyStr.lines text)
  | None => None
  end.

Definition has_kpi (dir : directory) (fname : string) : bool :=
  match kpi_in dir fname with Some _ => true | None => false end.

Definition kpi_or_zero (dir : directory) (fname : option string) : Q :=
  match fname with
  | Some f => match kpi_in dir f with Some v => v | None => 0%Q end
  | None => 0%Q
  end.

(** The retrieval as the specification states it: only the first
    report of an earlier week is read. *)
Definition most_recent_only (dir : directory) (current_week : Z) : Q :=
  kpi_or_zero dir (find (week_before current_week) (report_files dir)).

(** The retrieval as the loop runs: reports of an earlier week without
    a KPI line are passed over. *)
Definition first_with_kpi (dir : directory) (current_week : Z) : Q :=
  kpi_or_zero dir
    (find (fun f => week_before current_week f && has_kpi dir f)
       (report_files dir)).

(** ** Worked inputs *)

(** A parser for the timestamps of the examples. *)
Definition example_parse (s : string) : option datetime :=
  if String.eqb s "2024-03-04T10:00:00Z"
  then Some (mkDatetime 1709546400000000 738949)
  else if String.eqb s "2024-03-05T09:30:00Z"
  then Some (mkDatetime 1709631000000000 738950)
  else if String.eqb s "2024-03-06T23:15:00Z"
  then Some (mkDatetime 1709766900000000 738951)
  else if String.eqb s "2024-02-20T08:00:00Z"
  then Some (mkDatetime 1708416000000000 738936)
  else None.

(** 2024-03-07T12:00:00Z *)
Definition example_now : Z := 1709812800000000.

Definition example_strftime (t : Z) : string :=
  if t =? 1708416000000000 then "2024-02-20 08:00" else "2024-03-04 10:00".

Definition author_record (name date : string) : json :=
  JObj [("name", JStr name); ("email", JStr "dev@example.org");
        ("date", JStr date)].

Definition commit_record (message : string) (author : json) : json :=
  JObj [("sha", JStr "6dcb09b5b57875f334f61aebed695e2e4193db5e");
        ("commit", JObj [("author", author); ("message", JStr message)])].

(** A commit whose author is absent. *)
Definition commit_without_author : json :=
  commit_record "Fix login bug" JNull.

(** What the API answers when it refuses a request. *)
Definition error_response : json :=
  JObj [("message", JStr "Bad credentials");
        ("documentation_url", JStr "https://docs.github.com/rest")].

(** The shape of the GraphQL answer around the items. *)
Definition project_response (items : list json) : json :=
  JObj [("data",
         JObj [("user",
                JObj [("projectV2",
                       JObj [("items", JObj [("nodes", JList items)])])])])].

(** A board item, done, last updated on 2024-02-20. *)
Definition stale_done_item : json :=
  JObj [("content", JObj [("title", JStr "Ship the release")]);
        ("updatedAt", JStr "2024-02-20T08:00:00Z");
        ("fieldValues", JObj [("nodes", JList [JObj [("name", JStr "Done")]])])].

(** Two reports: the one of week 9 has no KPI line, the one of week 8
    has one. *)
Definition example_reports : directory :=
  [("Weekly_Report_Week_8.md",
    "## KPI Score Summary" ++ String "010" "" ++ kpi_line (15 # 2));
   ("Weekly_Report_Week_9.md",
    "# Weekly Report - Week 9" ++ String "010" "")].

(** Contributors who did nothing that counts. *)
Definition idle_contributors : dict Contributor :=
  [(Py.KStr "alice", default_contributor); (Py.KStr "bob", default_contributor)].

(** Three commits by bob, on three days, each adding something. *)
Definition bob_commits : json :=
  JList [commit_record "Add login page"
           (author_record "bob" "2024-03-04T10:00:00Z");
         commit_record "add tests"
           (author_record "bob" "2024-03-05T09:30:00Z");
         commit_record "Added docs"
           (author_record "bob" "2024-03-06T23:15:00Z")].

Definition bob_state : state :=
  fst (get_commits example_parse bob_commits initial_state).

Definition idle_state : state := mkState initial_stats idle_contributors [] [].

(** The state after three fix-commits: its KPI is 7.5. *)
Definition three_fixes_state : state :=
  mkState (mkStats 0 3 0 0 0 0 0 0) [] [] [].

(** The KPI section of a report of week 9 with that KPI. *)
Definition week9_report : string :=
  "## KPI Score Summary" ++ String "010" ""
  ++ kpi_line (calculate_kpi three_fixes_state)
  ++ "- Previous Week KPI: **6.0**" ++ String "010" "".

(** ** The effect of one issue and of one board item *)

(** The counters after an issue: opened in the window, closed in the
    window, labelled as a bug. *)
Definition issue_stats (opened closed bug : bool) (s : Stats) : Stats :=
  let s := if opened then incr_issues_opened s else s in
  if closed
  then let s := incr_issues_closed s in
       if bug then incr_bugs_closed s else s
  else s.

(** What an issue closed in the window adds to its author. *)
Definition issue_credit (r : Contributor) : Contributor :=
  mkContributor (kpi r + 2) (bug_fixes r) (total_actions r + 1)
    (add_commits r) (refactor_commits r) (active_days r).

(** ** Measures of a run *)

(** The number of commits counted so far. *)
Definition commit_count (s : Stats) : Z :=
  stats_add s + stats_fix s + stats_refactor s + stats_other_commits s.

(** The sum of one field over the contributors. *)
Definition sum_of (f : Contributor -> Z) (d : dict Contributor) : Z :=
  fold_right (fun kv acc => f (snd kv) + acc) 0 d.

(** What the contributors hold never exceeds what was counted. *)
Definition credited_within_counted (st : state) : Prop :=
  sum_of bug_fixes (contributors st) <= stats_fix (stats st)
  /\ sum_of add_commits (contributors st) <= stats_add (stats st)
  /\ sum_of refactor_commits (contributors st) <= stats_refactor (stats st)
  /\ sum_of total_actions (contributors st)
     <= commit_count (stats st) + stats_issues_closed (stats st).

(** What holds of every contributor record: the KPI is a number of
    halves, between one and two and a half points per action; the
    classified commits are among the actions; the active days are
    distinct and no more than the actions. *)
Definition contributor_consistent (r : Contributor) : Prop :=
  (exists z : Z, kpi r == z # 2)%Q
  /\ (inject_Z (total_actions r) <= kpi r)%Q
  /\ (kpi r <= (5 # 2) * inject_Z (total_actions r))%Q
  /\ 0 <= bug_fixes r /\ 0 <= add_commits r /\ 0 <= refactor_commits r
  /\ bug_fixes r + add_commits r + refactor_commits r <= total_actions r
  /\ NoDup (active_days r)
  /\ Z.of_nat (List.length (active_days r)) <= total_actions r.

Definition contributors_consistent (st : state) : Prop :=
  Forall (fun kv => contributor_consistent (snd kv)) (contributors st).

(** The counters of each stage. *)
Definition commit_counters (s : Stats) : Z * Z * Z * Z :=
  (stats_add s, stats_fix s, stats_refactor s, stats_other_commits s).

Definition issue_counters (s : Stats) : Z * Z * Z :=
  (stats_issues_opened s, stats_issues_closed s, stats_bugs_closed s).

(** No counter is below what it was. *)
Definition stats_le (s s' : Stats) : Prop :=
  stats_add s <= stats_add s' /\ stats_fix s <= stats_fix s'
  /\ stats_refactor s <= stats_refactor s'
  /\ stats_other_commits s <= stats_other_commits s'
  /\ stats_issues_opened s <= stats_issues_opened s'
  /\ stats_issues_closed s <= stats_issues_closed s'
  /\ stats_bugs_closed s <= stats_bugs_closed s'
  /\ stats_tasks_completed s <= stats_tasks_completed s'.

Definition contributor_le (r r' : Contributor) : Prop :=
  (kpi r <= kpi r')%Q /\ bug_fixes r <= bug_fixes r'
  /\ total_actions r <= total_actions r' /\ add_commits r <= add_commits r'
  /\ refactor_commits r <= refactor_commits r'
  /\ incl (active_days r) (active_days r').

(** The state [st'] holds all that [st] holds: no counter went down,
    no contributor or active day was lost, no task or diagnostic was
    removed or changed. *)
Definition state_le (st st' : state) : Prop :=
  stats_le (stats st) (stats st')
  /\ (forall k r, Dict.lookup k (contributors st) = Some r ->
        exists r', Dict.lookup k (contributors st') = Some r'
                   /\ contributor_le r r')
  /\ (exists more, project_tasks st' = (project_tasks st ++ more)%list)
  /\ (exists more, stdout st' = (stdout st ++ more)%list).

(** Closed bugs are closed issues, and completed tasks are listed
    tasks. *)
Definition counters_ordered (st : state) : Prop :=
  0 <= stats_bugs_closed (stats st) <= stats_issues_closed (stats st)
  /\ 0 <= stats_tasks_completed (stats st)
     <= Z.of_nat (List.length (project_tasks st)).

(** An issue record of the API: created, closed, labelled, reported by
    a user. *)
Definition issue_record (created closed : json) (labels : list string)
  (login : string) : json :=
  JObj [("number", JNum 7);
        ("created_at", created);
        ("closed_at", closed);
        ("labels", JList (map (fun n => JObj [("name", JStr n)]) labels));
        ("user", JObj [("login", JStr login)])].

(** The items of the board in the GraphQL answer:
    [data['data']['user']['projectV2']['items']['nodes']], as the
    loop goes through them. *)
Definition project_items (data : json) : result (list json) :=
  do d <- Py.subscript data "data";
  do u <- Py.subscript d "user";
  do p <- Py.subscript u "projectV2";
  do i <- Py.subscript p "items";
  do ns <- Py.subscript i "nodes";
  Py.iter ns.

(** A board item, in progress, last updated on 2024-03-05. *)
Definition fresh_item : json :=
  JObj [("content", JObj [("title", JStr "Write the changelog")]);
        ("updatedAt", JStr "2024-03-05T09:30:00Z");
        ("fieldValues",
         JObj [("nodes",
                JList [JObj []; JObj [("text", JStr "Write the changelog")];
                       JObj [("name", JStr "In Progress")]])])].

(** A directory where a file that has the prefix and no number sorts
    first. *)
Definition reports_with_draft : directory :=
  [("Weekly_Report_Week_8.md", kpi_line (15 # 2));
   ("Weekly_Report_Week_draft.md", "notes");
   ("notes.txt", "This Week KPI: **99**")].

(** ** The report file *)

(** No character is a digit. *)
Fixpoint no_digits (s : string) : bool :=
  match s with
  | EmptyString => true
  | String c s' => negb (PyStr.is_digit c) && no_digits s'
  end.

(** No character of [s] is [c]. *)
Fixpoint no_char (c : ascii) (s : string) : bool :=
  match s with
  | EmptyString => true
  | String a s' => negb (Ascii.eqb a c) && no_char c s'
  end.

Definition newline : string := String "010" "".

(** The strings that [generate_markdown_report] writes, one per call
    of [f.write], up to the line of the KPI (lines 287 to 308).
    [since] and [now_iso] are the two ends of the date range as
    [isoformat] gives them. *)
Definition report_writes (week_number : Z) (since now_iso : string)
  (s : Stats) (kpi_score : Q) : list string :=
  [ "# Weekly Report - Week " ++ PyStr.str_of_Z week_number ++ newline;
    "**Date Range:** " ++ since ++ " → " ++ now_iso ++ newline ++ newline;
    "## Technical Achievements" ++ newline;
    "- Add commits: " ++ PyStr.str_of_Z (stats_add s) ++ newline;
    "- Fix commits: " ++ PyStr.str_of_Z (stats_fix s) ++ newline;
    "- Refactor commits: " ++ PyStr.str_of_Z (stats_refactor s) ++ newline;
    "- Other commits: " ++ PyStr.str_of_Z (stats_other_commits s)
      ++ newline ++ newline;
    "## Bugs Resolved" ++ newline;
    "- Issues Closed: " ++ PyStr.str_of_Z (stats_issues_closed s) ++ newline;
    "- Bug-type Issues Closed: " ++ PyStr.str_of_Z (stats_bugs_closed s)
      ++ newline ++ newline;
    "## Project Tasks Completed" ++ newline;
    "- Tasks marked Done/Completed: "
      ++ PyStr.str_of_Z (stats_tasks_completed s) ++ newline ++ newline;
    "## KPI Score Summary" ++ newline;
    kpi_line kpi_score ].

(** The text of the report up to the line of the KPI. *)
Definition report_head (week_number : Z) (since now_iso : string)
  (s : Stats) (kpi_score : Q) : string :=
  String.concat "" (report_writes week_number since now_iso s kpi_score).

(** [open(name, 'w')] followed by the writes and the close: the file is
    created, or replaced when it is there. *)
Fixpoint write_file (name text : string) (dir : directory) : directory :=
  match dir with
  | [] => [(name, text)]
  | (n, t) :: dir' =>
      if String.eqb name n then (n, text) :: dir'
      else (n, t) :: write_file name text dir'
  end.

(** The directory after [os.makedirs('reports', exist_ok=True)] and the
    writing of the report of the week. *)
Definition reports_after (reports_dir : option directory) (week_number : Z)
  (text : string) : directory :=
  write_file (report_filename week_number) text
    (match reports_dir with Some dir => dir | None => [] end).

(** A written string that the reader passes over: it ends a line and
    holds no capital K, so no line made of it holds the marker. *)
Definition skippable (chunk : string) : Prop :=
  exists t, chunk = t ++ newline /\ no_char "K" t = true.

(** The globals after one fix, one add, one closed bug and one
    completed task: a KPI of 9.5. *)
Definition busy_state : state :=
  mkState (mkStats 1 1 0 2 3 1 1 1) [] [] [].

(** ** The badges, one contributor at a time *)

(** The contributor [c] is the one that [max] picks for the field [f],
    and the picked record passes the test [ok]. *)
Definition wins {K} (gtb : K -> K -> bool) (f : Contributor -> K)
  (ok : Contributor -> bool) (cs : dict Contributor) (c : Py.key) : bool :=
  match py_max gtb (fun x => f (snd x)) cs with
  | Some w => Py.key_eqb c (fst w) && ok (snd w)
  | None => false
  end.

(** The contributor [c] has at least three active days. *)
Definition three_days (cs : dict Contributor) (c : Py.key) : bool :=
  match Dict.lookup c cs with
  | Some data => 3 <=? Z.of_nat (List.length (active_days data))
  | None => false
  end.

Definition badge_if (b : bool) (label : string) : list string :=
  if b then [label] else [].

(** The badges of [c], in the order in which [assign_badges] gives
    them. *)
Definition expected_badges (cs : dict Contributor) (c : Py.key)
  : list string :=
  (badge_if (wins Qgtb kpi (fun _ => true) cs c) "Top Contributor"
   ++ badge_if (wins Z.gtb bug_fixes (fun r => bug_fixes r >? 0) cs c)
        "Bug Squasher"
   ++ badge_if (wins Z.gtb total_actions (fun _ => true) cs c) "Most Active"
   ++ badge_if (wins Z.gtb add_commits (fun r => add_commits r >? 0) cs c)
        "Feature Creator"
   ++ badge_if (wins Z.gtb refactor_commits
                  (fun r => refactor_commits r >? 0) cs c)
        "Code Refactorer"
   ++ badge_if (three_days cs c) "Consistent Contributor")%list.

(** The three badges that ask for a positive score, each with the
    count that it looks at. *)
Definition positive_badges : list (string * (Contributor -> Z)) :=
  [("Bug Squasher", bug_fixes); ("Feature Creator", add_commits);
   ("Code Refactorer", refactor_commits)].

(** Two contributors with the same KPI and one below. *)
Definition tied_state : state :=
  mkState initial_stats
    [(Py.KStr "carol", mkContributor 1 0 1 0 0 [738949]);
     (Py.KStr "alice", mkContributor (5 # 2) 1 1 0 0 [738949]);
     (Py.KStr "bob", mkContributor (5 # 2) 1 1 0 0 [738950])]
    [] [].

(** ** The order of the contributors in the report *)

(** [sorted(contributors.items(), key=lambda x: x[1]['kpi'],
    reverse=True)]: the sort is stable, so an item goes before the
    items that were after it and have the same KPI. *)
Fixpoint insert_by_kpi (x : Py.key * Contributor)
  (l : list (Py.key * Contributor)) : list (Py.key * Contributor) :=
  match l with
  | [] => [x]
  | y :: l' =>
      if Qle_bool (kpi (snd y)) (kpi (snd x)) then x :: l
      else y :: insert_by_kpi x l'
  end.

Definition sorted_by_kpi (cs : dict Contributor) : list (Py.key * Contributor) :=
  fold_right insert_by_kpi [] cs.

(** Each KPI is at least the next one. *)
Definition kpi_descending (a b : Py.key * Contributor) : Prop :=
  (kpi (snd b) <= kpi (snd a))%Q.

(** ** Shapes of field values and of decimals *)

(** A field value of a board item with the single-select name and the
    text that it carries, when it carries them. *)
Definition field_value (name text : option string) : json :=
  JObj ((match name with Some n => [("name", JStr n)] | None => [] end)
        ++ (match text with Some t => [("text", JStr t)] | None => [] end)).

(** The status that a field value gives: its name when it has one that
    is not empty, else its text when it has one that is not empty. *)
Definition status_of (name text : option string) : list string :=
  match name with
  | Some (String c n) => [PyStr.lower (String c n)]
  | _ =>
      match text with
      | Some (String c t) => [PyStr.lower (String c t)]
      | _ => []
      end
  end.

(** Digits, or digits, a dot and digits. *)
Definition decimal_shape (g : string) : Prop :=
  exists d, all_digits d = true /\ d <> ""
    /\ (g = d \/ exists f, all_digits f = true /\ f <> ""
                           /\ g = d ++ "." ++ f).

(** * Properties *)

(** ** Dictionaries *)

Lemma key_eqb_eq (a b : Py.key) : Py.key_eqb a b = true <-> a = b.
Proof.
  destruct a, b; simpl; split; intro H;
    try discriminate; try reflexivity.
  - apply Z.eqb_eq in H. now subst.
  - injection H as ->. apply Z.eqb_refl.
  - apply String.eqb_eq in H. now subst.
  - injection H as ->. apply String.eqb_refl.
Qed.

Lemma key_eqb_refl (a : Py.key) : Py.key_eqb a a = true.
Proof. now apply key_eqb_eq. Qed.

Lemma key_eqb_neq (a b : Py.key) : Py.key_eqb a b = false <-> a <> b.
Proof.
  split.
  - intros H E. apply key_eqb_eq in E. congruence.
  - intros H. destruct (Py.key_eqb a b) eqn:E; [|reflexivity].
    apply key_eqb_eq in E. contradiction.
Qed.

Lemma key_eqb_sym (a b : Py.key) : Py.key_eqb a b = Py.key_eqb b a.
Proof.
  destruct (Py.key_eqb b a) eqn:E.
  - apply key_eqb_eq in E. subst. apply key_eqb_refl.
  - apply key_eqb_neq. apply key_eqb_neq in E. congruence.
Qed.

Section DictFacts.

Context {V : Type}.
Variable default : V.

Lemma lookup_modify_same (k : Py.key) (f : V -> V) (d : dict V) :
  Dict.lookup k (Dict.modify default k f d)
  = Some (f (match Dict.lookup k d with Some v => v | None => default end)).
Proof.
  induction d as [|[k' v] d IH]; simpl.
  - now rewrite key_eqb_refl.
  - destruct (Py.key_eqb k k') eqn:E; simpl; rewrite E; auto.
Qed.

Lemma lookup_modify_other (k k' : Py.key) (f : V -> V) (d : dict V) :
  k' <> k ->
  Dict.lookup k' (Dict.modify default k f d) = Dict.lookup k' d.
Proof.
  intros N. apply key_eqb_neq in N.
  induction d as [|[k0 v] d IH]; simpl.
  - now rewrite N.
  - destruct (Py.key_eqb k k0) eqn:E; simpl.
    + apply key_eqb_eq in E. subst k0. now rewrite N.
    + now rewrite IH.
Qed.

Lemma lookup_modify (k k' : Py.key) (f : V -> V) (d : dict V) :
  Dict.lookup k' (Dict.modify default k f d)
  = if Py.key_eqb k' k
    then Some (f (match Dict.lookup k d with Some v => v | None => default end))
    else Dict.lookup k' d.
Proof.
  destruct (Py.key_eqb k' k) eqn:E.
  - apply key_eqb_eq in E. subst. apply lookup_modify_same.
  - apply key_eqb_neq in E. now apply lookup_modify_other.
Qed.

Lemma modify_modify (k : Py.key) (f g : V -> V) (d : dict V) :
  Dict.modify default k g (Dict.modify default k f d)
  = Dict.modify default k (fun v => g (f v)) d.
Proof.
  induction d as [|[k' v] d IH]; simpl.
  - now rewrite key_eqb_refl.
  - destruct (Py.key_eqb k k') eqn:E; simpl; rewrite E; [reflexivity|].
    now rewrite IH.
Qed.

Lemma modify_ext (k : Py.key) (f g : V -> V) (d : dict V) :
  (forall v, f v = g v) ->
  Dict.modify default k f d = Dict.modify default k g d.
Proof.
  intros H. induction d as [|[k' v] d IH]; simpl.
  - now rewrite H.
  - destruct (Py.key_eqb k k'); [now rewrite H | now rewrite IH].
Qed.

Lemma keys_modify (k : Py.key) (f : V -> V) (d : dict V) :
  Dict.keys (Dict.modify default k f d)
  = if existsb (Py.key_eqb k) (Dict.keys d) then Dict.keys d
    else (Dict.keys d ++ [k])%list.
Proof.
  unfold Dict.keys.
  induction d as [|[k' v] d IH]; simpl; [reflexivity|].
  destruct (Py.key_eqb k k') eqn:E; simpl; [reflexivity|].
  rewrite IH.
  now destruct (existsb (Py.key_eqb k) (map fst d)).
Qed.

Lemma NoDup_keys_modify (k : Py.key) (f : V -> V) (d : dict V) :
  NoDup (Dict.keys d) -> NoDup (Dict.keys (Dict.modify default k f d)).
Proof.
  intros H. rewrite keys_modify.
  destruct (existsb (Py.key_eqb k) (Dict.keys d)) eqn:E; [exact H|].
  apply NoDup_app; [exact H | repeat constructor; intros [] | ].
  intros x Hx [-> | []].
  assert (existsb (Py.key_eqb x) (Dict.keys d) = true); [|congruence].
  apply existsb_exists. exists x. split; [exact Hx | apply key_eqb_refl].
Qed.

Lemma lookup_In (k : Py.key) (v : V) (d : dict V) :
  Dict.lookup k d = Some v -> In (k, v) d.
Proof.
  induction d as [|[k' v'] d IH]; simpl; [discriminate|].
  destruct (Py.key_eqb k k') eqn:E.
  - apply key_eqb_eq in E. intros [= ->]. subst. now left.
  - intros H. right. auto.
Qed.

Lemma In_lookup (k : Py.key) (v : V) (d : dict V) :
  NoDup (Dict.keys d) -> In (k, v) d -> Dict.lookup k d = Some v.
Proof.
  induction d as [|[k' v'] d IH]; simpl; [intros _ []|].
  intros N [E | H].
  - injection E as -> ->. now rewrite key_eqb_refl.
  - inversion N as [|? ? N1 N2]; subst.
    destruct (Py.key_eqb k k') eqn:E.
    + apply key_eqb_eq in E. subst. exfalso. apply N1.
      change k' with (fst (k', v)). now apply in_map.
    + auto.
Qed.

End DictFacts.

(** ** The global KPI *)


(** ** The commit classifier *)

Lemma subscript_truthy (a : json) (k : string) (v : json) :
  Py.subscript a k = Ok v -> Py.truthy a = true.
Proof.
  destruct a as [| | | | |fields]; simpl; try discriminate.
  destruct fields; [discriminate | reflexivity].
Qed.

Lemma update_contributor_twice (author : json) (k : Py.key)
  (f g : Contributor -> Contributor) (st : state) :
  Py.to_key author = Ok k ->
  (update_contributor author f ;; update_contributor author g) st
  = update_contributor author (fun r => g (f r)) st.
Proof.
  intros H. unfold bind, update_contributor. rewrite H. simpl.
  now rewrite modify_modify.
Qed.



(** C5. A commit whose author is absent is given the name "Unknown",
    and the next statement then reads the date through the absent
    author: the loop raises [TypeError] at that commit, before any
    counter or contributor is touched for it, and the stage ends with
    that exception. *)
Theorem absent_author_raises :
  forall (parse : string -> option datetime) (st : state),
    classify_commit parse commit_without_author st = (st, Raise TypeError)
    /\ get_commits parse (JList [commit_without_author]) st
       = (st, Raise TypeError)
    /\ Dict.lookup (Py.KStr "Unknown")
         (contributors
            (fst (get_commits parse (JList [commit_without_author])
                    initial_state)))
       = None.
Proof.
  intros parse st. repeat split; destruct st; reflexivity.
Qed.

(** An author that is there with a name that is [null] is not absent
    for the test of line 76: the commit is classified, under the key
    [None] and not under "Unknown". *)
Example null_name_is_not_unknown :
  let commit :=
    commit_record "Fix login bug"
      (JObj [("name", JNull); ("date", JStr "2024-03-04T10:00:00Z")]) in
  let st' := fst (get_commits example_parse (JList [commit]) initial_state) in
  Dict.keys (contributors st') = [Py.KNone]
  /\ Dict.lookup (Py.KStr "Unknown") (contributors st') = None.
Proof. split; reflexivity. Qed.

(** ** The issue aggregator *)

(** C3. On the object the API answers when it refuses the request,
    [get_issues] iterates over the keys of the object and subscripts
    the first one: it raises [TypeError], leaves the globals as they
    were and prints nothing; [get_commits] on the same answer prints
    its diagnostic and returns. *)
Theorem get_issues_error_response_raises :
  forall (now : Z) (parse : string -> option datetime) (st : state),
    get_issues now parse error_response st = (st, Raise TypeError)
    /\ get_commits parse error_response st
       = (mkState (stats st) (contributors st) (project_tasks st)
            (stdout st ++ [CommitsApiError error_response]), Ok tt).
Proof.
  intros now parse st. split; destruct st; reflexivity.
Qed.

(** X27. On any response that is not a list [get_issues] prints
    nothing and changes nothing; it raises [TypeError], except on an
    empty object or an empty string, where the loop has nothing to go
    through. *)
Lemma get_issues_not_a_list (now : Z) (parse : string -> option datetime)
  (response : json) (st : state) :
  (forall items, response <> JList items) ->
  fst (get_issues now parse response st) = st
  /\ (snd (get_issues now parse response st) = Raise TypeError
      \/ response = JObj [] \/ response = JStr "").
Proof.
  intros H. destruct response as [| b | n | s | items | fields];
    try (split; [reflexivity | now left]).
  - destruct s as [|c s]; [split; [reflexivity | now right; right]|].
    split; [reflexivity | now left].
  - now contradiction (H items).
  - destruct fields as [|[k v] fields]; [split; [reflexivity | now right; left]|].
    split; [reflexivity | now left].
Qed.

(** ** What every statement keeps *)

Section Preservation.

Variable P : state -> Prop.

Lemma preserves_ret {A} (a : A) : preserves P (ret a).
Proof. intros st H. exact H. Qed.

Lemma preserves_lift {A} (r : result A) : preserves P (lift r).
Proof. intros st H. exact H. Qed.

Lemma preserves_bind {A B} (m : M A) (k : A -> M B) :
  preserves P m -> (forall a, preserves P (k a)) -> preserves P (bind m k).
Proof.
  intros Hm Hk st H. unfold bind.
  specialize (Hm st H).
  destruct (m st) as [st' [a|e]]; simpl in *.
  - now apply Hk.
  - exact Hm.
Qed.

Lemma preserves_for_each {A} (xs : list A) (body : A -> M unit) :
  (forall x, preserves P (body x)) -> preserves P (for_each xs body).
Proof.
  intros Hb. induction xs as [|x xs IH]; simpl.
  - apply preserves_ret.
  - apply preserves_bind; auto.
Qed.

Lemma preserves_try_except (body : M unit) (handler : exn -> M unit) :
  preserves P body -> (forall e, preserves P (handler e)) ->
  preserves P (try_except body handler).
Proof.
  intros Hb Hh st H. unfold try_except.
  specialize (Hb st H).
  destruct (body st) as [st' [[]|e]]; simpl in *.
  - exact Hb.
  - now apply Hh.
Qed.

Lemma preserves_if {A} (b : bool) (m1 m2 : M A) :
  preserves P m1 -> preserves P m2 -> preserves P (if b then m1 else m2).
Proof. now destruct b. Qed.

End Preservation.

Lemma Forall_modify {V} (Q : V -> Prop) (default : V) (k : Py.key)
  (f : V -> V) (d : dict V) :
  (forall v, Q v -> Q (f v)) -> Q default ->
  Forall (fun kv => Q (snd kv)) d ->
  Forall (fun kv => Q (snd kv)) (Dict.modify default k f d).
Proof.
  intros Hf Hd. induction 1 as [|[k' v] d Hv Hrest IH]; simpl.
  - constructor; [simpl; auto | constructor].
  - destruct (Py.key_eqb k k'); constructor; simpl in *; auto.
Qed.

Lemma nonneg_default : nonneg_contributor default_contributor.
Proof. unfold nonneg_contributor; simpl. repeat split; try lia. apply Qle_refl. Qed.

Lemma nonneg_add_kpi (w : Q) (c : Contributor) :
  (0 <= w)%Q -> nonneg_contributor c -> nonneg_contributor (add_kpi w c).
Proof.
  intros Hw (Hk & H). split; [|exact H]. simpl.
  assert (E : (0 + 0 <= kpi c + w)%Q) by (apply Qplus_le_compat; assumption).
  now rewrite Qplus_0_l in E.
Qed.

Lemma nonneg_incr_bug_fixes (c : Contributor) :
  nonneg_contributor c -> nonneg_contributor (incr_bug_fixes c).
Proof. unfold nonneg_contributor; simpl; intuition lia. Qed.

Lemma nonneg_incr_total_actions (c : Contributor) :
  nonneg_contributor c -> nonneg_contributor (incr_total_actions c).
Proof. unfold nonneg_contributor; simpl; intuition lia. Qed.

Lemma nonneg_incr_add_commits (c : Contributor) :
  nonneg_contributor c -> nonneg_contributor (incr_add_commits c).
Proof. unfold nonneg_contributor; simpl; intuition lia. Qed.

Lemma nonneg_incr_refactor_commits (c : Contributor) :
  nonneg_contributor c -> nonneg_contributor (incr_refactor_commits c).
Proof. unfold nonneg_contributor; simpl; intuition lia. Qed.

Lemma nonneg_add_active_day (d : Z) (c : Contributor) :
  nonneg_contributor c -> nonneg_contributor (add_active_day d c).
Proof. unfold nonneg_contributor; simpl; intuition lia. Qed.

Lemma preserves_update_stats (f : Stats -> Stats) :
  (forall s, nonneg_stats s -> nonneg_stats (f s)) ->
  preserves nonneg_state (update_stats f).
Proof. intros Hf st [Hs Hc]. split; simpl; auto. Qed.

Lemma preserves_update_contributor (author : json)
  (f : Contributor -> Contributor) :
  (forall c, nonneg_contributor c -> nonneg_contributor (f c)) ->
  preserves nonneg_state (update_contributor author f).
Proof.
  intros Hf st [Hs Hc]. unfold update_contributor.
  destruct (Py.to_key author) as [k|e]; simpl; [|now split].
  split; simpl; [exact Hs|].
  apply Forall_modify; auto. apply nonneg_default.
Qed.

Lemma preserves_append_task (t : ProjectTask) :
  preserves nonneg_state (append_task t).
Proof. intros st H. exact H. Qed.

Lemma preserves_print (d : diagnostic) : preserves nonneg_state (print d).
Proof. intros st H. exact H. Qed.

Lemma nonneg_incr_stats (s : Stats) :
  nonneg_stats s ->
  nonneg_stats (incr_add s) /\ nonneg_stats (incr_fix s)
  /\ nonneg_stats (incr_refactor s) /\ nonneg_stats (incr_other_commits s)
  /\ nonneg_stats (incr_issues_opened s) /\ nonneg_stats (incr_issues_closed s)
  /\ nonneg_stats (incr_bugs_closed s) /\ nonneg_stats (incr_tasks_completed s).
Proof. unfold nonneg_stats; simpl; intuition lia. Qed.

Create HintDb keeps.

#[local] Hint Resolve preserves_ret preserves_lift preserves_bind
  preserves_for_each preserves_try_except preserves_if
  preserves_update_stats preserves_update_contributor
  preserves_append_task preserves_print
  nonneg_add_kpi nonneg_incr_bug_fixes nonneg_incr_total_actions
  nonneg_incr_add_commits nonneg_incr_refactor_commits
  nonneg_add_active_day : keeps.

#[local] Hint Extern 1 (nonneg_stats (_ _)) =>
  apply nonneg_incr_stats; assumption : keeps.

#[local] Hint Extern 1 (0 <= _)%Q => discriminate : keeps.

Ltac keeps := intros; repeat (first
  [ apply preserves_bind; [|intros]
  | apply preserves_if
  | apply preserves_for_each; intros
  | apply preserves_try_except; [|intros]
  | match goal with
    | |- preserves _ (match ?x with _ => _ end) => destruct x
    end
  | solve [auto 6 with keeps] ]).

Lemma classify_commit_keeps (parse : string -> option datetime) (commit : json) :
  preserves nonneg_state (classify_commit parse commit).
Proof. unfold classify_commit. keeps. Qed.

Lemma get_commits_keeps (parse : string -> option datetime) (response : json) :
  preserves nonneg_state (get_commits parse response).
Proof.
  unfold get_commits.
  destruct response; auto with keeps.
  apply preserves_for_each. intros. apply classify_commit_keeps.
Qed.

Lemma count_issue_keeps (now : Z) (parse : string -> option datetime)
  (issue : json) :
  preserves nonneg_state (count_issue now parse issue).
Proof. unfold count_issue. keeps. Qed.

Lemma get_issues_keeps (now : Z) (parse : string -> option datetime)
  (response : json) :
  preserves nonneg_state (get_issues now parse response).
Proof.
  pose proof (count_issue_keeps now parse) as Hbody.
  unfold get_issues. keeps.
Qed.

Lemma collect_task_keeps (now : Z) (parse : string -> option datetime)
  (strftime : Z -> string) (item : json) :
  preserves nonneg_state (collect_task now parse strftime item).
Proof. unfold collect_task. keeps. Qed.

Lemma get_project_tasks_keeps (now : Z) (parse : string -> option datetime)
  (strftime : Z -> string) (data : json) :
  preserves nonneg_state (get_project_tasks now parse strftime data).
Proof.
  pose proof (collect_task_keeps now parse strftime) as Hbody.
  unfold get_project_tasks. keeps.
Qed.

Lemma nonneg_initial : nonneg_state initial_state.
Proof.
  split; [|constructor]. unfold nonneg_stats; simpl. repeat split; lia.
Qed.

(** C9. From the all-zero state, after any sequence of runs of the
    three stages on any responses at all, each run taken to its return
    or to the exception that ends it, every global counter and every
    numeric field of every contributor is non-negative. *)
Theorem reachable_nonneg :
  forall (now : Z) (parse : string -> option datetime)
         (strftime : Z -> string) (st : state),
    reachable now parse strftime st -> nonneg_state st.
Proof.
  intros now parse strftime st H.
  induction H as [|st st' _ IH Hstep].
  - apply nonneg_initial.
  - destruct Hstep.
    + now apply get_commits_keeps.
    + now apply get_issues_keeps.
    + now apply get_project_tasks_keeps.
Qed.

Lemma reachable_nonneg_witness :
  nonneg_state
    (fst (get_commits example_parse
            (JList [commit_record "Fix login bug"
                      (author_record "alice" "2024-03-04T10:00:00Z")])
            initial_state)).
Proof.
  apply (reachable_nonneg example_now example_parse example_strftime).
  eapply reach_step; [apply reach_initial | apply step_commits].
Defined.

(** ** One entry per contributor *)

Lemma keys_unique_update_stats (f : Stats -> Stats) :
  preserves keys_unique (update_stats f).
Proof. intros st H. exact H. Qed.

Lemma keys_unique_update_contributor (author : json)
  (f : Contributor -> Contributor) :
  preserves keys_unique (update_contributor author f).
Proof.
  intros st H. unfold update_contributor.
  destruct (Py.to_key author) as [k|e]; simpl; [|exact H].
  now apply NoDup_keys_modify.
Qed.

Lemma keys_unique_append_task (t : ProjectTask) :
  preserves keys_unique (append_task t).
Proof. intros st H. exact H. Qed.

Lemma keys_unique_print (d : diagnostic) : preserves keys_unique (print d).
Proof. intros st H. exact H. Qed.

#[local] Hint Resolve keys_unique_update_stats keys_unique_update_contributor
  keys_unique_append_task keys_unique_print : keeps.

Lemma reachable_keys_unique (now : Z) (parse : string -> option datetime)
  (strftime : Z -> string) (st : state) :
  reachable now parse strftime st -> keys_unique st.
Proof.
  assert (Hc : forall commit,
             preserves keys_unique (classify_commit parse commit))
    by (unfold classify_commit; keeps).
  assert (Hi : forall issue,
             preserves keys_unique (count_issue now parse issue))
    by (unfold count_issue; keeps).
  assert (Ht : forall item,
             preserves keys_unique (collect_task now parse strftime item))
    by (unfold collect_task; keeps).
  assert (Hgc : forall response,
             preserves keys_unique (get_commits parse response))
    by (intros response; unfold get_commits; destruct response;
        auto with keeps).
  assert (Hgi : forall response,
             preserves keys_unique (get_issues now parse response))
    by (unfold get_issues; keeps).
  assert (Hgt : forall data,
             preserves keys_unique (get_project_tasks now parse strftime data))
    by (unfold get_project_tasks; keeps).
  induction 1 as [|st st' _ IH Hstep].
  - constructor.
  - destruct Hstep; [apply Hgc | apply Hgi | apply Hgt]; exact IH.
Qed.

(** ** Badges *)

Section MaxFrom.

Context {A K : Type}.
Variable gtb : K -> K -> bool.
Variable le : K -> K -> Prop.
Variable key : A -> K.
Hypothesis le_refl : forall a, le a a.
Hypothesis le_trans : forall a b c, le a b -> le b c -> le a c.
Hypothesis gtb_true : forall a b, gtb a b = true -> le b a.
Hypothesis gtb_false : forall a b, gtb a b = false -> le a b.

Lemma max_from_In (best : A) (l : list A) :
  In (max_from gtb key best l) (best :: l).
Proof.
  revert best. induction l as [|x l IH]; intros best; simpl.
  - now left.
  - destruct (gtb (key x) (key best)).
    + right. apply IH.
    + destruct (IH best) as [E | H]; [now left | now right; right].
Qed.

Lemma max_from_best (best : A) (l : list A) :
  le (key best) (key (max_from gtb key best l)).
Proof.
  revert best. induction l as [|x l IH]; intros best; simpl.
  - apply le_refl.
  - destruct (gtb (key x) (key best)) eqn:E.
    + apply le_trans with (key x); [now apply gtb_true | apply IH].
    + apply IH.
Qed.

Lemma max_from_greatest (best : A) (l : list A) (x : A) :
  In x (best :: l) -> le (key x) (key (max_from gtb key best l)).
Proof.
  revert best. induction l as [|y l IH]; intros best.
  - intros [<- | []]. apply le_refl.
  - intros [E | [E | H]].
    + subst x. apply (max_from_best best (y :: l)).
    + subst x. simpl. destruct (gtb (key y) (key best)) eqn:E.
      * apply max_from_best.
      * apply le_trans with (key best);
          [now apply gtb_false | apply max_from_best].
    + simpl. destruct (gtb (key y) (key best)); apply IH; now right.
Qed.

End MaxFrom.

Lemma Qgtb_true (a b : Q) : Qgtb a b = true -> (b <= a)%Q.
Proof.
  unfold Qgtb. intros H. apply negb_true_iff in H.
  apply Qlt_le_weak, Qnot_le_lt. intros L.
  apply Qle_bool_iff in L. congruence.
Qed.

Lemma Qgtb_false (a b : Q) : Qgtb a b = false -> (a <= b)%Q.
Proof.
  unfold Qgtb. intros H. apply negb_false_iff in H. now apply Qle_bool_iff.
Qed.

Lemma badges_of_award (k c : Py.key) (b : string) (badges : dict (list string)) :
  badges_of (award k b badges) c
  = if Py.key_eqb c k then (badges_of badges k ++ [b])%list
    else badges_of badges c.
Proof.
  unfold badges_of, award. rewrite lookup_modify.
  now destruct (Py.key_eqb c k).
Qed.

Lemma In_award (k c : Py.key) (b l : string) (badges : dict (list string)) :
  In l (badges_of (award k b badges) c)
  <-> In l (badges_of badges c) \/ (c = k /\ l = b).
Proof.
  rewrite badges_of_award. destruct (Py.key_eqb c k) eqn:E.
  - apply key_eqb_eq in E. subst c. rewrite in_app_iff. simpl. intuition.
  - apply key_eqb_neq in E. intuition.
Qed.

Lemma In_award_consistent (cs : dict Contributor) (c : Py.key) (l : string)
  (badges : dict (list string)) :
  In l (badges_of (award_consistent cs badges) c)
  <-> In l (badges_of badges c)
      \/ (l = "Consistent Contributor"
          /\ exists data, In (c, data) cs
                          /\ (3 <= List.length (active_days data))%nat).
Proof.
  revert badges. induction cs as [|[k data] cs IH]; intros badges; simpl.
  - split; [now left | intros [H | (_ & d & [] & _)]; exact H].
  - rewrite IH.
    destruct (3 <=? Z.of_nat (List.length (active_days data))) eqn:E.
    + apply Z.leb_le in E. rewrite In_award. split.
      * intros [[H | [-> ->]] | (-> & d & H & L)]; eauto 8.
        right. split; [reflexivity|]. exists data. split; [now left | lia].
      * intros [H | (-> & d & [[= -> ->] | H] & L)]; eauto 8.
    + apply Z.leb_gt in E. split.
      * intros [H | (-> & d & H & L)]; eauto 8.
      * intros [H | (-> & d & [[= -> ->] | H] & L)]; eauto 8. lia.
Qed.

(** The badges given before the last loop: who holds which of the five
    single-winner labels. *)
Lemma In_assign_badges (st : state) (p : Py.key * Contributor)
  (cs : dict Contributor) (c : Py.key) (l : string) :
  contributors st = p :: cs ->
  let top := max_from Qgtb (fun x => kpi (snd x)) p cs in
  let bug := max_from Z.gtb (fun x => bug_fixes (snd x)) p cs in
  let active := max_from Z.gtb (fun x => total_actions (snd x)) p cs in
  let feature := max_from Z.gtb (fun x => add_commits (snd x)) p cs in
  let refactor := max_from Z.gtb (fun x => refactor_commits (snd x)) p cs in
  In l (badges_of (assign_badges st) c)
  <-> (l = "Top Contributor" /\ c = fst top)
      \/ (l = "Bug Squasher" /\ c = fst bug /\ 0 < bug_fixes (snd bug))
      \/ (l = "Most Active" /\ c = fst active)
      \/ (l = "Feature Creator" /\ c = fst feature
          /\ 0 < add_commits (snd feature))
      \/ (l = "Code Refactorer" /\ c = fst refactor
          /\ 0 < refactor_commits (snd refactor))
      \/ (l = "Consistent Contributor"
          /\ exists data, In (c, data) (p :: cs)
                          /\ (3 <= List.length (active_days data))%nat).
Proof.
  intros E top bug active feature refactor.
  unfold assign_badges. rewrite E. cbv zeta. cbn [py_max].
  fold top bug active feature refactor.
  rewrite In_award_consistent.
  destruct (refactor_commits (snd refactor) >? 0) eqn:E5;
    destruct (add_commits (snd feature) >? 0) eqn:E4;
    destruct (bug_fixes (snd bug) >? 0) eqn:E2;
    repeat rewrite In_award;
    rewrite ?Z.gtb_gt in *;
    repeat match goal with
           | H : (_ >? _) = false |- _ =>
               rewrite Z.gtb_ltb in H; apply Z.ltb_ge in H
           end;
    unfold badges_of; simpl; intuition (try lia).
Qed.

(** C6. "Consistent Contributor" is held by exactly the contributors
    whose set of active days has at least 3 elements, whatever their
    KPI and their other counts. *)
Theorem consistent_contributor_iff :
  forall (st : state) (c : Py.key),
    keys_unique st ->
    In "Consistent Contributor" (badges_of (assign_badges st) c)
    <-> exists data,
          Dict.lookup c (contributors st) = Some data
          /\ (3 <= List.length (active_days data))%nat.
Proof.
  intros st c N. unfold keys_unique in N.
  destruct (contributors st) as [|p cs] eqn:E.
  - unfold assign_badges. rewrite E. simpl.
    split; [intros [] | intros (d & H & _); discriminate].
  - rewrite (In_assign_badges st p cs c _ E). split.
    + intros [(H & _) | [(H & _) | [(H & _) | [(H & _) | [(H & _) | H]]]]];
        try discriminate.
      destruct H as (_ & data & H & L). exists data. split; [|exact L].
      now apply In_lookup.
    + intros (data & H & L). do 5 right. split; [reflexivity|].
      exists data. split; [|exact L]. now apply lookup_In.
Qed.

Lemma consistent_contributor_iff_witness :
  keys_unique bob_state
  /\ (In "Consistent Contributor"
        (badges_of (assign_badges bob_state) (Py.KStr "bob"))
      <-> exists data,
            Dict.lookup (Py.KStr "bob") (contributors bob_state) = Some data
            /\ (3 <= List.length (active_days data))%nat).
Proof.
  assert (N : keys_unique bob_state).
  { unfold keys_unique. vm_compute. repeat constructor. intros []. }
  split; [exact N|].
  exact (consistent_contributor_iff bob_state (Py.KStr "bob") N).
Defined.

(** The scenario of the specification: bob, three additions on three
    days. *)
Example bob_scenario :
  contributors bob_state
  = [(Py.KStr "bob",
      mkContributor (0 + 2 + 2 + 2) 0 3 3 0 [738949; 738950; 738951])]
  /\ badges_of (assign_badges bob_state) (Py.KStr "bob")
     = ["Top Contributor"; "Most Active"; "Feature Creator";
        "Consistent Contributor"].
Proof. split; reflexivity. Qed.

Lemma Zgtb_true (a b : Z) : (a >? b) = true -> b <= a.
Proof. rewrite Z.gtb_gt. lia. Qed.

Lemma Zgtb_false (a b : Z) : (a >? b) = false -> a <= b.
Proof. rewrite Z.gtb_ltb. intros H. apply Z.ltb_ge in H. exact H. Qed.

(** C10. When there is at least one contributor, "Top Contributor" is
    held by exactly one of them, one whose KPI is the greatest, and
    "Most Active" by exactly one, one whose total of actions is the
    greatest; no positive score is asked for, so this holds as well
    when every KPI and every total is 0. *)
Theorem top_and_most_active_unique :
  forall st : state,
    contributors st <> [] ->
    exists top active : Py.key * Contributor,
      In top (contributors st)
      /\ (forall x, In x (contributors st) -> (kpi (snd x) <= kpi (snd top))%Q)
      /\ (forall c, In "Top Contributor" (badges_of (assign_badges st) c)
                    <-> c = fst top)
      /\ In active (contributors st)
      /\ (forall x, In x (contributors st) ->
                    total_actions (snd x) <= total_actions (snd active))
      /\ (forall c, In "Most Active" (badges_of (assign_badges st) c)
                    <-> c = fst active).
Proof.
  intros st NE.
  destruct (contributors st) as [|p cs] eqn:E; [contradiction|].
  exists (max_from Qgtb (fun x => kpi (snd x)) p cs),
         (max_from Z.gtb (fun x => total_actions (snd x)) p cs).
  split; [apply max_from_In|].
  split.
  { intros x Hx.
    apply (max_from_greatest Qgtb Qle (fun x => kpi (snd x))
             Qle_refl Qle_trans Qgtb_true Qgtb_false p cs x Hx). }
  split.
  { intros c. rewrite (In_assign_badges st p cs c _ E). split.
    - intros [(_ & H) | [(H & _) | [(H & _) | [(H & _) | [(H & _) | (H & _)]]]]];
        try discriminate; exact H.
    - intros ->. left. now split. }
  split; [apply max_from_In|].
  split.
  { intros x Hx.
    apply (max_from_greatest Z.gtb Z.le (fun x => total_actions (snd x))
             Z.le_refl Z.le_trans Zgtb_true Zgtb_false p cs x Hx). }
  intros c. rewrite (In_assign_badges st p cs c _ E). split.
  - intros [(H & _) | [(H & _) | [(_ & H) | [(H & _) | [(H & _) | (H & _)]]]]];
      try discriminate; exact H.
  - intros ->. right; right; left. now split.
Qed.

Lemma top_and_most_active_unique_witness :
  exists top active : Py.key * Contributor,
    In top (contributors idle_state)
    /\ (forall x, In x (contributors idle_state) ->
                  (kpi (snd x) <= kpi (snd top))%Q)
    /\ (forall c, In "Top Contributor" (badges_of (assign_badges idle_state) c)
                  <-> c = fst top)
    /\ In active (contributors idle_state)
    /\ (forall x, In x (contributors idle_state) ->
                  total_actions (snd x) <= total_actions (snd active))
    /\ (forall c, In "Most Active" (badges_of (assign_badges idle_state) c)
                  <-> c = fst active).
Proof.
  apply (top_and_most_active_unique idle_state). discriminate.
Defined.

(** With two contributors at 0 everywhere, the first one holds both
    badges and the three badges that ask for a positive score are
    withheld. *)
Example idle_badges :
  assign_badges idle_state
  = [(Py.KStr "alice", ["Top Contributor"; "Most Active"])].
Proof. reflexivity. Qed.

(** ** The project-task aggregator *)

Lemma for_each_app {A} (pre post : list A) (body : A -> M unit) (st : state) :
  for_each (pre ++ post) body st
  = match for_each pre body st with
    | (st', Ok _) => for_each post body st'
    | (st', Raise e) => (st', Raise e)
    end.
Proof.
  revert st. induction pre as [|x pre IH]; intros st; simpl.
  - reflexivity.
  - unfold bind. destruct (body x st) as [st1 [[]|e]]; [apply IH|].
    reflexivity.
Qed.

Lemma get_project_tasks_response (now : Z) (parse : string -> option datetime)
  (strftime : Z -> string) (items : list json) (st : state) :
  get_project_tasks now parse strftime (project_response items) st
  = try_except (for_each items (collect_task now parse strftime))
      (fun e => print (ProjectTasksError e)) st.
Proof. reflexivity. Qed.

Lemma try_except_print_stats (body : M unit) (st : state) :
  let st' := fst (try_except body (fun e => print (ProjectTasksError e)) st) in
  stats st' = stats (fst (body st))
  /\ project_tasks st' = project_tasks (fst (body st))
  /\ contributors st' = contributors (fst (body st)).
Proof.
  unfold try_except. destruct (body st) as [st1 [[]|e]]; simpl; auto.
Qed.

Lemma collect_task_stale (now : Z) (parse : string -> option datetime)
  (strftime : Z -> string) (item : json) (s : string) (dt : datetime)
  (st : state) :
  Py.subscript item "updatedAt" = Ok (JStr s) ->
  parse s = Some dt ->
  instant dt < now - seven_days ->
  fst (collect_task now parse strftime item st) = st.
Proof.
  intros Hu Hp Hw.
  assert (W : in_window now dt = false)
    by (unfold in_window; apply Z.leb_gt; exact Hw).
  unfold collect_task, bind, lift, py_parse. rewrite Hu, Hp, W.
  repeat match goal with
         | |- context [match ?x with _ => _ end] => destruct x
         end; reflexivity.
Qed.



(** ** The retrieval of the previous KPI *)

Lemma insert_desc_perm (x : string) (l : list string) :
  Permutation (insert_desc x l) (x :: l).
Proof.
  induction l as [|y l IH]; simpl.
  - apply Permutation_refl.
  - destruct (String.leb y x); [apply Permutation_refl|].
    apply perm_trans with (y :: x :: l); [now apply perm_skip | apply perm_swap].
Qed.

Lemma sorted_reverse_perm (l : list string) :
  Permutation (sorted_reverse l) l.
Proof.
  induction l as [|x l IH]; simpl; [constructor|].
  apply perm_trans with (x :: sorted_reverse l);
    [apply insert_desc_perm | now apply perm_skip].
Qed.

Lemma insert_desc_hd (a x : string) (l : list string) :
  descending a x -> HdRel descending a l -> HdRel descending a (insert_desc x l).
Proof.
  intros Hx Hl. destruct l as [|y l]; simpl.
  - now constructor.
  - destruct (String.leb y x); constructor; [exact Hx|].
    now inversion Hl.
Qed.

Lemma insert_desc_sorted (x : string) (l : list string) :
  Sorted descending l -> Sorted descending (insert_desc x l).
Proof.
  induction 1 as [|y l Hs IH Hh]; simpl.
  - repeat constructor.
  - destruct (String.leb y x) eqn:E.
    + constructor; [now constructor | now constructor].
    + constructor; [exact IH|].
      apply insert_desc_hd; [|exact Hh].
      unfold descending. destruct (String.leb_total x y) as [H | H];
        [exact H | congruence].
Qed.

Lemma sorted_reverse_sorted (l : list string) :
  Sorted descending (sorted_reverse l).
Proof.
  induction l as [|x l IH]; simpl; [constructor|].
  now apply insert_desc_sorted.
Qed.

Lemma report_files_In (dir : directory) (f : string) :
  In f (report_files dir) -> In f (map fst dir).
Proof.
  intros H. unfold report_files in H.
  apply (Permutation_in _ (sorted_reverse_perm _)) in H.
  now apply filter_In in H.
Qed.

Lemma assoc_In {A} (f : string) (l : list (string * A)) :
  In f (map fst l) -> exists v, Py.assoc f l = Some v.
Proof.
  induction l as [|[k v] l IH]; simpl; [intros []|].
  intros [E | H].
  - subst k. rewrite String.eqb_refl. eauto.
  - destruct (String.eqb f k); eauto.
Qed.

Lemma week_of_digits (f : string) :
  PyStr.findall_digits f <> [] -> exists n, week_of f = Ok n.
Proof.
  intros H. unfold week_of.
  destruct (rev (PyStr.findall_digits f)) as [|run runs] eqn:E; [|eauto].
  apply (f_equal (@rev string)) in E. rewrite rev_involutive in E.
  simpl in E. contradiction.
Qed.

Lemma scan_reports_first (dir : directory) (w : Z) (files : list string) :
  (forall f, In f files -> PyStr.findall_digits f <> []) ->
  (forall f, In f files -> In f (map fst dir)) ->
  scan_reports dir w files
  = Ok (kpi_or_zero dir
          (find (fun f => week_before w f && has_kpi dir f) files)).
Proof.
  intros Hd Hi. induction files as [|f files IH]; simpl; [reflexivity|].
  destruct (week_of_digits f (Hd f (or_introl eq_refl))) as [n En].
  destruct (assoc_In f dir (Hi f (or_introl eq_refl))) as [text Et].
  unfold week_before, has_kpi, kpi_in. rewrite En, Et. simpl.
  destruct (n <? w); simpl.
  - destruct (scan_lines (PyStr.lines text)) as [v|] eqn:Ev; simpl.
    + unfold kpi_in. now rewrite Et, Ev.
    + apply IH; intros g Hg; [apply Hd | apply Hi]; now right.
  - apply IH; intros g Hg; [apply Hd | apply Hi]; now right.
Qed.




(** ** Decimal strings *)

Lemma all_digits_uint (u : Decimal.uint) :
  all_digits (NilEmpty.string_of_uint u) = true.
Proof. induction u; simpl; auto. Qed.

Lemma int_of_digits_from_pos (u : Decimal.uint) (p : positive) :
  PyStr.int_of_digits_from (Z.pos p) (NilEmpty.string_of_uint u)
  = Z.pos (Pos.of_uint_acc u p).
Proof.
  revert p. induction u; intros p; cbn [NilEmpty.string_of_uint
    PyStr.int_of_digits_from Pos.of_uint_acc]; [reflexivity|..];
    match goal with
    | |- PyStr.int_of_digits_from (_ + PyStr.digit_value ?c) _ = _ =>
        let v := eval cbv in (PyStr.digit_value c) in
        change (PyStr.digit_value c) with v
    end;
    match goal with
    | |- PyStr.int_of_digits_from ?a _ = Z.pos (Pos.of_uint_acc _ ?q) =>
        replace a with (Z.pos q) by lia
    end; apply IHu.
Qed.

Lemma int_of_digits_from_zero (u : Decimal.uint) :
  PyStr.int_of_digits_from 0 (NilEmpty.string_of_uint u)
  = Z.of_N (Pos.of_uint u).
Proof.
  induction u; cbn [NilEmpty.string_of_uint PyStr.int_of_digits_from
    Pos.of_uint]; [reflexivity | exact IHu |..];
    match goal with
    | |- PyStr.int_of_digits_from ?a _ = _ =>
        let v := eval cbv in a in change a with v
    end; apply int_of_digits_from_pos.
Qed.

Lemma str_of_Z_pos (p : positive) :
  PyStr.str_of_Z (Z.pos p) = NilEmpty.string_of_uint (Pos.to_uint p).
Proof.
  unfold PyStr.str_of_Z. cbn [Z.to_int NilEmpty.string_of_int]. reflexivity.
Qed.

Lemma int_of_str_of_Z (n : Z) :
  0 <= n -> PyStr.int_of_digits (PyStr.str_of_Z n) = n.
Proof.
  intros H. destruct n as [|p|p]; [reflexivity | | lia].
  rewrite str_of_Z_pos. unfold PyStr.int_of_digits.
  rewrite int_of_digits_from_zero, DecimalPos.Unsigned.of_to. reflexivity.
Qed.

Lemma all_digits_str_of_Z (n : Z) :
  0 <= n -> all_digits (PyStr.str_of_Z n) = true.
Proof.
  intros H. destruct n as [|p|p]; [reflexivity | | lia].
  rewrite str_of_Z_pos. apply all_digits_uint.
Qed.

Lemma str_of_Z_nonempty (n : Z) : 0 <= n -> PyStr.str_of_Z n <> "".
Proof.
  intros H E. destruct n as [|p|p]; [discriminate | | lia].
  pose proof (int_of_str_of_Z (Z.pos p) H) as R. rewrite E in R.
  discriminate.
Qed.

Lemma take_digits_app (d rest : string) :
  all_digits d = true ->
  match rest with
  | EmptyString => True
  | String c _ => PyStr.is_digit c = false
  end ->
  PyStr.take_digits (d ++ rest) = (d, rest).
Proof.
  intros Hd Hr. induction d as [|c d IH];
    cbn [append PyStr.take_digits all_digits] in *.
  - destruct rest as [|c r]; [reflexivity|].
    cbn [PyStr.take_digits]. now rewrite Hr.
  - apply andb_true_iff in Hd as [Hc Hd]. now rewrite Hc, IH.
Qed.

Lemma int_of_digits_from_app (acc : Z) (a b : string) :
  PyStr.int_of_digits_from acc (a ++ b)
  = PyStr.int_of_digits_from (PyStr.int_of_digits_from acc a) b.
Proof. revert acc. induction a; intros acc; simpl; auto. Qed.

Lemma all_digits_no_newline (d : string) :
  all_digits d = true -> no_newline d = true.
Proof.
  induction d as [|c d IH]; simpl; [reflexivity|].
  intros H. apply andb_true_iff in H as [Hc Hd]. rewrite (IH Hd), andb_true_r.
  destruct (Ascii.eqb c "010"%char) eqn:E; [|reflexivity].
  apply Ascii.eqb_eq in E. subst c. discriminate.
Qed.

Lemma append_assoc (a b c : string) : ((a ++ b) ++ c = a ++ (b ++ c))%string.
Proof. induction a; simpl; congruence. Qed.

Lemma lines_from_single (cur s : string) :
  no_newline s = true ->
  PyStr.lines_from cur (s ++ String "010" "")
  = [cur ++ s ++ String "010" ""].
Proof.
  revert cur. induction s as [|c s IH]; intros cur H; simpl in *.
  - reflexivity.
  - apply andb_true_iff in H as [Hc Hs]. apply negb_true_iff in Hc.
    rewrite Hc, (IH _ Hs), append_assoc. reflexivity.
Qed.

(** ** The line that one run writes and the next run reads *)

Lemma str_of_float_half (h : Z) :
  0 <= h ->
  str_of_float (h # 2)
  = PyStr.str_of_Z (h / 2) ++ "." ++ (if Z.even h then "0" else "5").
Proof.
  intros H. unfold str_of_float.
  assert (E : Qfloor (2 * (h # 2)) = h).
  { unfold Qfloor, Qmult. cbn [Qnum Qden inject_Z].
    change (Z.pos (1 * 2)) with 2. rewrite Z.mul_comm. apply Z.div_mul. lia. }
  rewrite E. destruct (h <? 0) eqn:L; [apply Z.ltb_lt in L; lia|].
  rewrite Z.abs_eq by exact H. reflexivity.
Qed.

Lemma search_bold_decimal_skip (c : ascii) (s : string) :
  Re.bold_decimal_at (String c s) = None ->
  Re.search_bold_decimal (String c s) = Re.search_bold_decimal s.
Proof. intros H. cbn [Re.search_bold_decimal]. now rewrite H. Qed.

Lemma search_bold_decimal_hit (s g : string) :
  Re.bold_decimal_at s = Some g -> Re.search_bold_decimal s = Some g.
Proof. intros H. destruct s; cbn [Re.search_bold_decimal]; now rewrite H. Qed.

Lemma startswith_stars (rest : string) :
  PyStr.startswith "**" (String "*" (String "*" rest)) = true.
Proof. destruct rest; reflexivity. Qed.

Lemma bold_decimal_written (d f rest : string) :
  all_digits d = true -> d <> "" -> f = "0" \/ f = "5" ->
  Re.search_bold_decimal
    ("- This Week KPI: **" ++ d ++ "." ++ f ++ "**" ++ rest)
  = Some (d ++ "." ++ f).
Proof.
  intros Hd Hn Hf.
  assert (T1 : PyStr.take_digits (d ++ "." ++ f ++ "**" ++ rest)
               = (d, "." ++ f ++ "**" ++ rest))
    by (apply take_digits_app; [exact Hd | reflexivity]).
  assert (T2 : PyStr.take_digits (f ++ "**" ++ rest) = (f, "**" ++ rest))
    by (destruct Hf; subst f; reflexivity).
  cbn [append] in *.
  repeat (rewrite search_bold_decimal_skip by reflexivity).
  apply search_bold_decimal_hit. cbn [Re.bold_decimal_at].
  rewrite T1. destruct d as [|c d]; [contradiction|].
  rewrite T2, startswith_stars. destruct Hf; subst f; reflexivity.
Qed.

Lemma contains_marker (rest : string) :
  PyStr.contains "This Week KPI:" ("- This Week KPI: **" ++ rest) = true.
Proof. reflexivity. Qed.

Lemma float_of_decimal_written (n : Z) (f : string) :
  0 <= n -> f = "0" \/ f = "5" ->
  float_of_decimal (PyStr.str_of_Z n ++ "." ++ f)
  = Qred ((10 * n + PyStr.int_of_digits f) # 10).
Proof.
  intros Hn Hf. unfold float_of_decimal.
  rewrite take_digits_app;
    [| now apply all_digits_str_of_Z | reflexivity ].
  cbn [append]. unfold PyStr.int_of_digits.
  rewrite int_of_digits_from_app.
  fold (PyStr.int_of_digits (PyStr.str_of_Z n)).
  rewrite (int_of_str_of_Z n Hn).
  destruct Hf; subst f; reflexivity.
Qed.

Lemma no_newline_app (a b : string) :
  no_newline (a ++ b) = no_newline a && no_newline b.
Proof.
  induction a as [|c a IH]; simpl; [reflexivity|].
  now rewrite IH, andb_assoc.
Qed.

Lemma kpi_line_is_one_line (d f : string) :
  all_digits d = true -> f = "0" \/ f = "5" ->
  let line := "- This Week KPI: **" ++ d ++ "." ++ f ++ "**"
              ++ String "010" "" in
  PyStr.lines line = [line].
Proof.
  intros Hd Hf line. unfold PyStr.lines.
  assert (E : line = ("- This Week KPI: **" ++ d ++ "." ++ f ++ "**")
                     ++ String "010" "").
  { unfold line. rewrite !append_assoc. reflexivity. }
  rewrite E. rewrite lines_from_single; [reflexivity|].
  rewrite !no_newline_app, (all_digits_no_newline d Hd).
  destruct Hf; subst f; reflexivity.
Qed.

(** The round trip on every KPI the script can compute: for each
    half-integer [h/2] that is not negative, the line written for it is
    one line of the report, and the retrieval reads [h/2] from it. *)
Lemma kpi_line_round_trip_all (h : Z) :
  0 <= h ->
  scan_lines (PyStr.lines (kpi_line (h # 2))) = Some (Qred (h # 2)).
Proof.
  intros H. unfold kpi_line. rewrite (str_of_float_half h H).
  set (n := h / 2). set (f := if Z.even h then "0" else "5").
  assert (Hn : 0 <= n) by (apply Z.div_pos; lia).
  assert (Hf : f = "0" \/ f = "5") by (unfold f; destruct (Z.even h); auto).
  assert (E : "- This Week KPI: **"
              ++ (PyStr.str_of_Z n ++ "." ++ f) ++ "**" ++ String "010" ""
              = "- This Week KPI: **" ++ PyStr.str_of_Z n ++ "." ++ f ++ "**"
                ++ String "010" "").
  { rewrite !append_assoc. reflexivity. }
  rewrite E.
  rewrite kpi_line_is_one_line; [|now apply all_digits_str_of_Z | exact Hf].
  cbn [scan_lines]. rewrite contains_marker.
  rewrite bold_decimal_written;
    [| now apply all_digits_str_of_Z | now apply str_of_Z_nonempty | exact Hf].
  rewrite (float_of_decimal_written n f Hn Hf). f_equal.
  apply Qred_complete. unfold Qeq. cbn [Qnum Qden].
  pose proof (Z.div_mod h 2 ltac:(lia)) as Hdm.
  rewrite Zmod_even in Hdm. fold n in Hdm.
  unfold f. destruct (Z.even h);
    [change (PyStr.int_of_digits "0") with 0
    | change (PyStr.int_of_digits "5") with 5]; lia.
Qed.

(** C8. For a KPI of 7.5 the renderer writes the line
    "- This Week KPI: **7.5**", and the retrieval of a later week,
    reading a report that holds this line, returns exactly 7.5. *)
Theorem kpi_line_round_trip :
  (calculate_kpi three_fixes_state == 15 # 2)%Q
  /\ kpi_line (calculate_kpi three_fixes_state)
     = "- This Week KPI: **7.5**" ++ String "010" ""
  /\ scan_lines (PyStr.lines (kpi_line (15 # 2))) = Some (15 # 2)
  /\ get_previous_week_kpi (Some [(report_filename 9, week9_report)]) 10
     = Ok (15 # 2).
Proof. repeat split. Qed.

(** ** What one pass of each loop can do *)

(** A commit leaves the globals as they were and raises; or it is
    counted and raises at its author, who cannot be a key; or it is
    counted and credited. *)
Lemma classify_commit_cases (parse : string -> option datetime)
  (commit : json) (st : state) :
  (exists e, classify_commit parse commit st = (st, Raise e))
  \/ (exists cls e,
        classify_commit parse commit st
        = (mkState (bump cls (stats st)) (contributors st)
             (project_tasks st) (stdout st), Raise e))
  \/ (exists cls k d,
        classify_commit parse commit st
        = (mkState (bump cls (stats st))
             (Dict.modify default_contributor k (credit cls d)
                (contributors st))
             (project_tasks st) (stdout st), Ok tt)).
Proof.
  unfold classify_commit, bind, lift.
  destruct (Py.subscript commit "commit") as [c|e]; [|left; eauto].
  destruct (Py.subscript c "message") as [m|e]; [|left; eauto].
  destruct (Py.str_lower m) as [msg|e]; [|left; eauto].
  destruct (Py.subscript c "author") as [a|e]; [|left; eauto].
  destruct (if Py.truthy a then Py.subscript a "name" else Ok (JStr "Unknown"))
    as [author|e]; [|left; eauto].
  destruct (Py.subscript a "date") as [ds|e]; [|left; eauto].
  destruct (py_parse parse ds) as [dt|e]; [|left; eauto].
  right. unfold update_stats, update_contributor.
  destruct (PyStr.contains "fix" msg);
    [|destruct (PyStr.contains "add" msg || PyStr.contains "enhancement" msg);
      [|destruct (PyStr.contains "refactor" msg)]];
    cbn [fst snd stats contributors project_tasks stdout];
    (destruct (Py.to_key author) as [k|e];
     [right | left]).
  - exists FixCommit, k, (local_day dt). cbn. now rewrite !modify_modify.
  - exists FixCommit, e. reflexivity.
  - exists AddCommit, k, (local_day dt). cbn. now rewrite !modify_modify.
  - exists AddCommit, e. reflexivity.
  - exists RefactorCommit, k, (local_day dt). cbn. now rewrite !modify_modify.
  - exists RefactorCommit, e. reflexivity.
  - exists OtherCommit, k, (local_day dt). cbn. now rewrite !modify_modify.
  - exists OtherCommit, e. reflexivity.
Qed.

Lemma count_issue_cases (now : Z) (parse : string -> option datetime)
  (issue : json) (st : state) :
  (exists e, count_issue now parse issue st = (st, Raise e))
  \/ (exists opened,
        count_issue now parse issue st
        = (mkState (issue_stats opened false false (stats st))
             (contributors st) (project_tasks st) (stdout st), Ok tt))
  \/ (exists opened bug e,
        count_issue now parse issue st
        = (mkState (issue_stats opened true bug (stats st))
             (contributors st) (project_tasks st) (stdout st), Raise e))
  \/ (exists opened bug k,
        count_issue now parse issue st
        = (mkState (issue_stats opened true bug (stats st))
             (Dict.modify default_contributor k issue_credit
                (contributors st))
             (project_tasks st) (stdout st), Ok tt)).
Proof.
  destruct st as [s cs ts out].
  unfold count_issue, bind, lift.
  destruct (Py.subscript issue "created_at") as [c0|e]; [|left; eauto].
  destruct (py_parse parse c0) as [created|e]; [|left; eauto].
  destruct (Py.get issue "closed_at" JNull) as [c|e]; [|left; eauto].
  match goal with
  | |- context [match (if Py.truthy c then ?a else ?b) with _ => _ end] =>
      destruct (if Py.truthy c then a else b) as [closed_at|e]; [|left; eauto]
  end.
  destruct (Py.get issue "labels" (JList [])) as [ls|e]; [|left; eauto].
  destruct (Py.iter ls) as [labels|e]; [|left; eauto].
  destruct (any_bug labels) as [is_bug|e]; [|left; eauto].
  right.
  set (opened := in_window now created).
  destruct closed_at as [t|];
    [|left; exists opened; destruct opened; reflexivity].
  destruct (in_window now t);
    [|left; exists opened; destruct opened; reflexivity].
  right.
  destruct (Py.subscript issue "user") as [u|e];
    [|left; exists opened, is_bug, e; destruct opened, is_bug; reflexivity].
  destruct (Py.subscript u "login") as [author|e];
    [|left; exists opened, is_bug, e; destruct opened, is_bug; reflexivity].
  unfold update_contributor.
  destruct (Py.to_key author) as [k|e];
    [|left; exists opened, is_bug, e; destruct opened, is_bug; reflexivity].
  right. exists opened, is_bug, k.
  destruct opened, is_bug; cbn; now rewrite modify_modify.
Qed.

Lemma collect_task_cases (now : Z) (parse : string -> option datetime)
  (strftime : Z -> string) (item : json) (st : state) :
  (exists e, collect_task now parse strftime item st = (st, Raise e))
  \/ collect_task now parse strftime item st = (st, Ok tt)
  \/ (exists done t,
        collect_task now parse strftime item st
        = (mkState (if done : bool then incr_tasks_completed (stats st)
                    else stats st)
             (contributors st) (project_tasks st ++ [t]) (stdout st), Ok tt)).
Proof.
  destruct st as [s cs ts out].
  unfold collect_task, bind, lift.
  destruct (Py.subscript item "updatedAt") as [us|e]; [|left; eauto].
  destruct (py_parse parse us) as [updated|e]; [|left; eauto].
  destruct (Py.get item "content" JNull) as [c|e]; [|left; eauto].
  match goal with
  | |- context [match (if Py.truthy c then ?a else ?b) with _ => _ end] =>
      destruct (if Py.truthy c then a else b) as [title|e]; [|left; eauto]
  end.
  destruct (Py.subscript item "fieldValues") as [fv|e]; [|left; eauto].
  destruct (Py.subscript fv "nodes") as [ns|e]; [|left; eauto].
  destruct (Py.iter ns) as [fields|e]; [|left; eauto].
  destruct (collect_statuses fields []) as [status_list|e]; [|left; eauto].
  right. destruct (in_window now updated); [right | left; reflexivity].
  exists (any_done status_list). eexists.
  destruct (any_done status_list); reflexivity.
Qed.

(** ** Induction over the runs *)

Lemma reachable_invariant (now : Z) (parse : string -> option datetime)
  (strftime : Z -> string) (P : state -> Prop) :
  P initial_state ->
  (forall commit, preserves P (classify_commit parse commit)) ->
  (forall issue, preserves P (count_issue now parse issue)) ->
  (forall item, preserves P (collect_task now parse strftime item)) ->
  (forall d, preserves P (print d)) ->
  forall st, reachable now parse strftime st -> P st.
Proof.
  intros H0 Hc Hi Ht Hp st H.
  induction H as [|st st' _ IH Hstep]; [exact H0|].
  destruct Hstep as [response st | response st | data st].
  - unfold get_commits. destruct response; try (now apply Hp).
    now apply preserves_for_each.
  - unfold get_issues. apply preserves_bind; [apply preserves_lift| |exact IH].
    intros issues. now apply preserves_for_each.
  - unfold get_project_tasks.
    apply preserves_try_except; [| intros; apply Hp | exact IH].
    repeat (apply preserves_bind; [apply preserves_lift | intros]).
    now apply preserves_for_each.
Qed.

Lemma sum_of_modify (f : Contributor -> Z) (k : Py.key)
  (g : Contributor -> Contributor) (d : dict Contributor) :
  f default_contributor = 0 ->
  sum_of f (Dict.modify default_contributor k g d)
  = sum_of f d + f (g (record_of k d)) - f (record_of k d).
Proof.
  intros H0. unfold record_of.
  induction d as [|[k' v] d IH]; simpl.
  - rewrite H0. lia.
  - destruct (Py.key_eqb k k') eqn:E; simpl.
    + lia.
    + rewrite IH. lia.
Qed.

Lemma credited_classify_commit (parse : string -> option datetime)
  (commit : json) :
  preserves credited_within_counted (classify_commit parse commit).
Proof.
  intros st (H1 & H2 & H3 & H4).
  destruct (classify_commit_cases parse commit st)
    as [[e ->] | [(cls & e & ->) | (cls & k & d & ->)]];
    unfold credited_within_counted, commit_count in *; simpl.
  - auto.
  - destruct cls; simpl; repeat split; lia.
  - rewrite !sum_of_modify by reflexivity.
    destruct cls; simpl; repeat split; lia.
Qed.

Lemma credited_count_issue (now : Z) (parse : string -> option datetime)
  (issue : json) :
  preserves credited_within_counted (count_issue now parse issue).
Proof.
  intros st (H1 & H2 & H3 & H4).
  destruct (count_issue_cases now parse issue st)
    as [[e ->] | [(o & ->) | [(o & b & e & ->) | (o & b & k & ->)]]];
    unfold credited_within_counted, commit_count in *; simpl.
  - auto.
  - destruct o; simpl; repeat split; lia.
  - destruct o, b; simpl; repeat split; lia.
  - rewrite !sum_of_modify by reflexivity.
    destruct o, b; simpl; repeat split; lia.
Qed.

Lemma credited_collect_task (now : Z) (parse : string -> option datetime)
  (strftime : Z -> string) (item : json) :
  preserves credited_within_counted (collect_task now parse strftime item).
Proof.
  intros st H.
  destruct (collect_task_cases now parse strftime item st)
    as [[e ->] | [-> | (done & t & ->)]]; auto.
  unfold credited_within_counted, commit_count in *; simpl.
  destruct done; simpl; exact H.
Qed.

(** X1. In every state that the stages can reach, the bug fixes, the
    add-commits and the refactor-commits held by the contributors add
    up to at most the global fix, add and refactor counters, and their
    total actions to at most the commits counted plus the issues
    counted as closed. *)
Theorem reachable_credited_within_counted :
  forall (now : Z) (parse : string -> option datetime)
         (strftime : Z -> string) (st : state),
    reachable now parse strftime st -> credited_within_counted st.
Proof.
  intros now parse strftime.
  apply (reachable_invariant now parse strftime).
  - unfold credited_within_counted, commit_count. simpl. lia.
  - apply credited_classify_commit.
  - apply credited_count_issue.
  - apply credited_collect_task.
  - intros d st H. exact H.
Qed.

(** ** What holds of every contributor *)

Lemma half_plus (x w : Q) (z v : Z) :
  (x == z # 2)%Q -> (w == v # 2)%Q -> (x + w == (z + v) # 2)%Q.
Proof.
  intros -> ->. unfold Qeq, Qplus. cbn [Qnum Qden].
  change (Z.pos (2 * 2)) with 4. lia.
Qed.

Lemma set_add_length (d : Z) (s : set Z) :
  (List.length (set_add Z.eq_dec d s) <= S (List.length s))%nat.
Proof.
  induction s as [|x s IH]; simpl; [lia|].
  destruct (Z.eq_dec d x); simpl; lia.
Qed.

Lemma consistent_default : contributor_consistent default_contributor.
Proof.
  unfold contributor_consistent; simpl. repeat split; try lia.
  - exists 0. reflexivity.
  - discriminate.
  - discriminate.
  - constructor.
Qed.

Lemma consistent_credit (cls : commit_class) (d : Z) (r : Contributor) :
  contributor_consistent r -> contributor_consistent (credit cls d r).
Proof.
  intros ((z & Hz) & Hlo & Hhi & Hb & Ha & Hr & Hsum & Hnd & Hlen).
  pose proof (set_add_length d (active_days r)) as Hl.
  assert (Hn : NoDup (set_add Z.eq_dec d (active_days r)))
    by now apply set_add_nodup.
  unfold contributor_consistent.
  destruct cls; cbn [credit kpi bug_fixes total_actions add_commits
                       refactor_commits active_days];
    rewrite inject_Z_plus; change (inject_Z 1) with 1%Q;
    (split; [|repeat split; try lia; try lra; exact Hn]).
  - exists (z + 5). now apply (half_plus _ _ z 5).
  - exists (z + 4). now apply (half_plus _ _ z 4).
  - exists (z + 2). now apply (half_plus _ _ z 2).
  - exists (z + 2). now apply (half_plus _ _ z 2).
Qed.

Lemma consistent_issue_credit (r : Contributor) :
  contributor_consistent r -> contributor_consistent (issue_credit r).
Proof.
  intros ((z & Hz) & Hlo & Hhi & Hb & Ha & Hr & Hsum & Hnd & Hlen).
  unfold contributor_consistent.
  cbn [issue_credit kpi bug_fixes total_actions add_commits
         refactor_commits active_days].
  rewrite inject_Z_plus. change (inject_Z 1) with 1%Q.
  split; [|repeat split; try lia; try lra; exact Hnd].
  exists (z + 4). now apply (half_plus _ _ z 4).
Qed.

(** X2. In every state that the stages can reach, each contributor has
    a KPI that is a whole number of halves, at least one point and at
    most two and a half points per action; bug fixes, add-commits and
    refactor-commits that add up to at most the total of actions; and
    active days that are distinct and no more than the actions. *)
Theorem reachable_contributors_consistent :
  forall (now : Z) (parse : string -> option datetime)
         (strftime : Z -> string) (st : state),
    reachable now parse strftime st -> contributors_consistent st.
Proof.
  intros now parse strftime.
  apply (reachable_invariant now parse strftime); unfold contributors_consistent.
  - constructor.
  - intros commit st H.
    destruct (classify_commit_cases parse commit st)
      as [[e ->] | [(cls & e & ->) | (cls & k & d & ->)]]; simpl; auto.
    apply Forall_modify; auto using consistent_default, consistent_credit.
  - intros issue st H.
    destruct (count_issue_cases now parse issue st)
      as [[e ->] | [(o & ->) | [(o & b & e & ->) | (o & b & k & ->)]]];
      simpl; auto.
    apply Forall_modify; auto using consistent_default, consistent_issue_credit.
  - intros item st H.
    destruct (collect_task_cases now parse strftime item st)
      as [[e ->] | [-> | (done & t & ->)]]; simpl; auto.
  - intros d st H. exact H.
Qed.

(** ** Relations between the state before and after a stage *)

Section StageRelation.

Variable R : state -> state -> Prop.
Hypothesis R_refl : forall st, R st st.
Hypothesis R_trans : forall a b c, R a b -> R b c -> R a c.

Lemma relation_preserved {A} (m : M A) (st0 : state) :
  (forall st, R st (fst (m st))) -> preserves (R st0) m.
Proof. intros H st H0. now apply R_trans with st. Qed.

Lemma get_commits_relation (parse : string -> option datetime) :
  (forall commit st, R st (fst (classify_commit parse commit st))) ->
  (forall d st, R st (fst (print d st))) ->
  forall response st, R st (fst (get_commits parse response st)).
Proof.
  intros Hc Hp response st.
  unfold get_commits. destruct response; try apply Hp.
  apply (preserves_for_each (R st)); [|apply R_refl].
  intros commit. now apply relation_preserved.
Qed.

Lemma get_issues_relation (now : Z) (parse : string -> option datetime) :
  (forall issue st, R st (fst (count_issue now parse issue st))) ->
  forall response st, R st (fst (get_issues now parse response st)).
Proof.
  intros Hi response st. unfold get_issues.
  apply (preserves_bind (R st)); [apply preserves_lift| |apply R_refl].
  intros issues. apply preserves_for_each.
  intros issue. now apply relation_preserved.
Qed.

Lemma get_project_tasks_relation (now : Z) (parse : string -> option datetime)
  (strftime : Z -> string) :
  (forall item st, R st (fst (collect_task now parse strftime item st))) ->
  (forall d st, R st (fst (print d st))) ->
  forall data st, R st (fst (get_project_tasks now parse strftime data st)).
Proof.
  intros Ht Hp data st. unfold get_project_tasks.
  apply (preserves_try_except (R st));
    [|intros e; now apply relation_preserved | apply R_refl].
  repeat (apply preserves_bind; [apply preserves_lift | intros]).
  apply preserves_for_each. intros item. now apply relation_preserved.
Qed.

End StageRelation.

Lemma contributor_le_refl (r : Contributor) : contributor_le r r.
Proof.
  unfold contributor_le. repeat split; try lia;
    [apply Qle_refl | apply incl_refl].
Qed.

Lemma contributor_le_trans (a b c : Contributor) :
  contributor_le a b -> contributor_le b c -> contributor_le a c.
Proof.
  unfold contributor_le. intros (H1 & H2 & H3 & H4 & H5 & H6)
    (K1 & K2 & K3 & K4 & K5 & K6).
  repeat split; try lia;
    [now apply Qle_trans with (kpi b) | now apply incl_tran with (active_days b)].
Qed.

Lemma state_le_refl (st : state) : state_le st st.
Proof.
  unfold state_le, stats_le. repeat split; try lia.
  - intros k r H. exists r. split; [exact H | apply contributor_le_refl].
  - exists []. now rewrite List.app_nil_r.
  - exists []. now rewrite List.app_nil_r.
Qed.

Lemma state_le_trans (a b c : state) :
  state_le a b -> state_le b c -> state_le a c.
Proof.
  unfold state_le, stats_le.
  intros (H1 & H2 & (t1 & H3) & (o1 & H4)) (K1 & K2 & (t2 & K3) & (o2 & K4)).
  repeat split; try lia.
  - intros k r H. destruct (H2 k r H) as (r1 & E1 & L1).
    destruct (K2 k r1 E1) as (r2 & E2 & L2).
    exists r2. split; [exact E2 | now apply contributor_le_trans with r1].
  - exists (t1 ++ t2)%list. now rewrite K3, H3, List.app_assoc.
  - exists (o1 ++ o2)%list. now rewrite K4, H4, List.app_assoc.
Qed.

Lemma contributor_le_credit (cls : commit_class) (d : Z) (r : Contributor) :
  contributor_le r (credit cls d r).
Proof.
  unfold contributor_le.
  destruct cls; cbn [credit kpi bug_fixes total_actions add_commits
                       refactor_commits active_days];
    repeat split; try lia; try lra;
    intros x Hx; now apply set_add_intro1.
Qed.

Lemma contributor_le_issue_credit (r : Contributor) :
  contributor_le r (issue_credit r).
Proof.
  unfold contributor_le.
  cbn [issue_credit kpi bug_fixes total_actions add_commits
         refactor_commits active_days].
  repeat split; try lia; try lra. apply incl_refl.
Qed.

Lemma lookup_le_modify (k : Py.key) (f : Contributor -> Contributor)
  (d : dict Contributor) :
  (forall r, contributor_le r (f r)) ->
  forall k' r, Dict.lookup k' d = Some r ->
    exists r', Dict.lookup k' (Dict.modify default_contributor k f d) = Some r'
               /\ contributor_le r r'.
Proof.
  intros Hf k' r H. rewrite lookup_modify.
  destruct (Py.key_eqb k' k) eqn:E.
  - apply key_eqb_eq in E. subst k'. rewrite H. eauto.
  - exists r. split; [exact H | apply contributor_le_refl].
Qed.

Lemma stats_le_bump (cls : commit_class) (s : Stats) : stats_le s (bump cls s).
Proof. unfold stats_le. destruct cls; simpl; repeat split; lia. Qed.

Lemma stats_le_issue (o c b : bool) (s : Stats) :
  stats_le s (issue_stats o c b s).
Proof. unfold stats_le. destruct o, c, b; simpl; repeat split; lia. Qed.

Lemma stats_le_refl (s : Stats) : stats_le s s.
Proof. unfold stats_le. repeat split; lia. Qed.

Ltac same_lists :=
  split; [exists []; now rewrite List.app_nil_r
         | exists []; now rewrite List.app_nil_r].

(** X3. Whatever a stage is given, and whether it returns or raises, it
    only adds to the globals: no counter goes down, every contributor
    that was there is still there with each number at least what it
    was and each active day kept, and the task list and the printed
    diagnostics are extended at their end. *)
Theorem stage_step_monotone :
  forall (now : Z) (parse : string -> option datetime)
         (strftime : Z -> string) (st st' : state),
    stage_step now parse strftime st st' -> state_le st st'.
Proof.
  intros now parse strftime st st' H.
  assert (Hp : forall d s, state_le s (fst (print d s))).
  { intros d s. unfold state_le. simpl.
    split; [apply stats_le_refl|]. split; [eauto using contributor_le_refl|].
    split; [exists []; now rewrite List.app_nil_r | eauto]. }
  destruct H as [response st | response st | data st].
  - apply (get_commits_relation state_le state_le_refl state_le_trans);
      [|exact Hp].
    intros commit s.
    destruct (classify_commit_cases parse commit s)
      as [[e ->] | [(cls & e & ->) | (cls & k & d & ->)]];
      [apply state_le_refl | |]; unfold state_le; cbn [fst stats contributors project_tasks stdout].
    + split; [apply stats_le_bump|].
      split; [eauto using contributor_le_refl | same_lists].
    + split; [apply stats_le_bump|].
      split; [apply lookup_le_modify, contributor_le_credit | same_lists].
  - apply (get_issues_relation state_le state_le_refl state_le_trans).
    intros issue s.
    destruct (count_issue_cases now parse issue s)
      as [[e ->] | [(o & ->) | [(o & b & e & ->) | (o & b & k & ->)]]];
      [apply state_le_refl | | |]; unfold state_le; cbn [fst stats contributors project_tasks stdout].
    + split; [apply stats_le_issue|].
      split; [eauto using contributor_le_refl | same_lists].
    + split; [apply stats_le_issue|].
      split; [eauto using contributor_le_refl | same_lists].
    + split; [apply stats_le_issue|].
      split; [apply lookup_le_modify, contributor_le_issue_credit | same_lists].
  - apply (get_project_tasks_relation state_le state_le_refl state_le_trans);
      [|exact Hp].
    intros item s.
    destruct (collect_task_cases now parse strftime item s)
      as [[e ->] | [-> | (done & t & ->)]];
      [apply state_le_refl | apply state_le_refl |].
    unfold state_le; cbn [fst stats contributors project_tasks stdout].
    split; [destruct done; [|apply stats_le_refl];
            unfold stats_le; simpl; repeat split; lia|].
    split; [eauto using contributor_le_refl|].
    split; [eauto | exists []; now rewrite List.app_nil_r].
Qed.

Lemma stage_step_monotone_witness : state_le initial_state bob_state.
Proof.
  apply (stage_step_monotone example_now example_parse example_strftime).
  apply step_commits.
Defined.

Lemma reachable_credited_within_counted_witness :
  credited_within_counted bob_state.
Proof.
  apply (reachable_credited_within_counted
           example_now example_parse example_strftime).
  eapply reach_step; [apply reach_initial | apply step_commits].
Defined.

Lemma reachable_contributors_consistent_witness :
  contributors_consistent bob_state.
Proof.
  apply (reachable_contributors_consistent
           example_now example_parse example_strftime).
  eapply reach_step; [apply reach_initial | apply step_commits].
Defined.

(** X4. Each stage writes its own counters only.  [get_commits] leaves
    the issue counters, the completed tasks and the task list as they
    were; [get_issues] leaves the commit counters, the completed tasks,
    the task list and the diagnostics; [get_project_tasks] leaves the
    commit counters, the issue counters and the contributors.  This
    holds on every response, also when the stage raises. *)
Theorem stages_write_their_own :
  forall (now : Z) (parse : string -> option datetime)
         (strftime : Z -> string) (response : json) (st : state),
    let c := fst (get_commits parse response st) in
    let i := fst (get_issues now parse response st) in
    let t := fst (get_project_tasks now parse strftime response st) in
    (issue_counters (stats c) = issue_counters (stats st)
     /\ stats_tasks_completed (stats c) = stats_tasks_completed (stats st)
     /\ project_tasks c = project_tasks st)
    /\ (commit_counters (stats i) = commit_counters (stats st)
        /\ stats_tasks_completed (stats i) = stats_tasks_completed (stats st)
        /\ project_tasks i = project_tasks st
        /\ stdout i = stdout st)
    /\ (commit_counters (stats t) = commit_counters (stats st)
        /\ issue_counters (stats t) = issue_counters (stats st)
        /\ contributors t = contributors st).
Proof.
  intros now parse strftime response st c i t.
  split; [|split].
  - subst c.
    apply (get_commits_relation
             (fun a b => issue_counters (stats b) = issue_counters (stats a)
                         /\ stats_tasks_completed (stats b)
                            = stats_tasks_completed (stats a)
                         /\ project_tasks b = project_tasks a)).
    + now intros.
    + intros x y z (H1 & H2 & H3) (K1 & K2 & K3).
      repeat split; congruence.
    + intros commit s.
      destruct (classify_commit_cases parse commit s)
        as [[e ->] | [(cls & e & ->) | (cls & k & d & ->)]];
        simpl; auto; destruct cls; auto.
    + intros d s. simpl. auto.
  - subst i.
    apply (get_issues_relation
             (fun a b => commit_counters (stats b) = commit_counters (stats a)
                         /\ stats_tasks_completed (stats b)
                            = stats_tasks_completed (stats a)
                         /\ project_tasks b = project_tasks a
                         /\ stdout b = stdout a)).
    + now intros.
    + intros x y z (H1 & H2 & H3 & H4) (K1 & K2 & K3 & K4).
      repeat split; congruence.
    + intros issue s.
      destruct (count_issue_cases now parse issue s)
        as [[e ->] | [(o & ->) | [(o & b & e & ->) | (o & b & k & ->)]]];
        simpl; auto; try destruct o; try destruct b; auto.
  - subst t.
    apply (get_project_tasks_relation
             (fun a b => commit_counters (stats b) = commit_counters (stats a)
                         /\ issue_counters (stats b) = issue_counters (stats a)
                         /\ contributors b = contributors a)).
    + now intros.
    + intros x y z (H1 & H2 & H3) (K1 & K2 & K3).
      repeat split; congruence.
    + intros item s.
      destruct (collect_task_cases now parse strftime item s)
        as [[e ->] | [-> | (done & tk & ->)]];
        simpl; auto; destruct done; auto.
    + intros d s. simpl. auto.
Qed.

Lemma counters_ordered_steps (now : Z) (parse : string -> option datetime)
  (strftime : Z -> string) :
  (forall commit,
      preserves counters_ordered (classify_commit parse commit))
  /\ (forall issue,
         preserves counters_ordered (count_issue now parse issue))
  /\ (forall item,
         preserves counters_ordered (collect_task now parse strftime item)).
Proof.
  unfold counters_ordered. split; [|split].
  - intros commit st H.
    destruct (classify_commit_cases parse commit st)
      as [[e ->] | [(cls & e & ->) | (cls & k & d & ->)]];
      simpl; auto; destruct cls; exact H.
  - intros issue st H.
    destruct (count_issue_cases now parse issue st)
      as [[e ->] | [(o & ->) | [(o & b & e & ->) | (o & b & k & ->)]]];
      simpl; auto; try destruct o; try destruct b; simpl; lia.
  - intros item st H.
    destruct (collect_task_cases now parse strftime item st)
      as [[e ->] | [-> | (done & t & ->)]]; simpl; auto.
    rewrite length_app. destruct done; simpl; lia.
Qed.

(** X5. In every state that the stages can reach, the bugs counted as
    closed are no more than the issues counted as closed, and the tasks
    counted as completed are no more than the tasks listed. *)
Theorem reachable_counters_ordered :
  forall (now : Z) (parse : string -> option datetime)
         (strftime : Z -> string) (st : state),
    reachable now parse strftime st -> counters_ordered st.
Proof.
  intros now parse strftime.
  destruct (counters_ordered_steps now parse strftime) as (Hc & Hi & Ht).
  apply (reachable_invariant now parse strftime); auto.
  - unfold counters_ordered. simpl. lia.
  - intros d st H. exact H.
Qed.

Lemma reachable_counters_ordered_witness : counters_ordered bob_state.
Proof.
  apply (reachable_counters_ordered
           example_now example_parse example_strftime).
  eapply reach_step; [apply reach_initial | apply step_commits].
Defined.

(** ** The commit stage as a whole *)

Lemma commit_count_bump (cls : commit_class) (s : Stats) :
  commit_count (bump cls s) = commit_count s + 1.
Proof. unfold commit_count. destruct cls; simpl; lia. Qed.

(** X6. On a list of commits, a run of [get_commits] that returns has
    counted every commit once in one of the four commit counters and
    once in the total actions of a contributor; a run that raises has
    counted no more than that. *)
Theorem get_commits_counts_each_commit :
  forall (parse : string -> option datetime) (commits : list json)
         (st : state),
    let n := Z.of_nat (List.length commits) in
    let st' := fst (get_commits parse (JList commits) st) in
    let counted := commit_count (stats st') - commit_count (stats st) in
    let credited :=
      sum_of total_actions (contributors st')
      - sum_of total_actions (contributors st) in
    match snd (get_commits parse (JList commits) st) with
    | Ok _ => counted = n /\ credited = n
    | Raise _ => 0 <= credited <= counted /\ counted <= n
    end.
Proof.
  intros parse commits. cbn [get_commits].
  induction commits as [|commit commits IH]; intros st.
  - simpl. lia.
  - cbn [for_each]. unfold bind.
    destruct (classify_commit_cases parse commit st)
      as [[e E] | [(cls & e & E) | (cls & k & d & E)]]; rewrite E.
    + cbn [fst snd List.length]. lia.
    + cbn [fst snd List.length stats contributors].
      rewrite commit_count_bump. lia.
    + specialize (IH (mkState (bump cls (stats st))
                        (Dict.modify default_contributor k (credit cls d)
                           (contributors st))
                        (project_tasks st) (stdout st))).
      cbn [fst snd List.length stats contributors] in *.
      rewrite commit_count_bump, sum_of_modify in IH by reflexivity.
      assert (T : total_actions (credit cls d (record_of k (contributors st)))
                  = total_actions (record_of k (contributors st)) + 1)
        by (destruct cls; reflexivity).
      rewrite T in IH.
      destruct (snd (for_each commits (classify_commit parse) _)); lia.
Qed.



(** ** One issue *)

Lemma get_issues_not_a_list_witness :
  fst (get_issues example_now example_parse error_response initial_state)
  = initial_state
  /\ (snd (get_issues example_now example_parse error_response initial_state)
      = Raise TypeError
      \/ error_response = JObj [] \/ error_response = JStr "").
Proof.
  apply (get_issues_not_a_list example_now example_parse error_response
           initial_state).
  intros items. discriminate.
Defined.

Lemma get_of_subscript (v : json) (k : string) (x default : json) :
  Py.subscript v k = Ok x -> Py.get v k default = Ok x.
Proof.
  destruct v; simpl; try discriminate.
  destruct (Py.assoc k fields); [trivial | discriminate].
Qed.

Lemma any_bug_names (labels : list json) (names : list string) :
  Forall2 (fun l n => Py.subscript l "name" = Ok (JStr n)) labels names ->
  any_bug labels
  = Ok (existsb (fun n => String.eqb (PyStr.lower n) "bug") names).
Proof.
  induction 1 as [|l n labels names H _ IH]; [reflexivity|].
  cbn [any_bug existsb]. rewrite H. cbn [rbind Py.str_lower].
  destruct (String.eqb (PyStr.lower n) "bug"); [reflexivity | exact IH].
Qed.

(** X8. An issue that carries a creation time, a closing time inside
    the seven-day window, labels with names and a user login is counted
    as closed; it is counted as a closed bug exactly when one of its
    label names is "bug" in any letter case, and as opened exactly when
    it was created inside the window; its user gains 2 KPI points and
    one action, and nothing else changes. *)
Theorem count_issue_closed_in_window :
  forall (now : Z) (parse : string -> option datetime) (issue u lg : json)
         (cs xs : string) (created closed : datetime) (labels : list json)
         (names : list string) (k : Py.key) (st : state),
    Py.subscript issue "created_at" = Ok (JStr cs) ->
    parse cs = Some created ->
    Py.subscript issue "closed_at" = Ok (JStr xs) ->
    xs <> "" ->
    parse xs = Some closed ->
    in_window now closed = true ->
    Py.subscript issue "labels" = Ok (JList labels) ->
    Forall2 (fun l n => Py.subscript l "name" = Ok (JStr n)) labels names ->
    Py.subscript issue "user" = Ok u ->
    Py.subscript u "login" = Ok lg ->
    Py.to_key lg = Ok k ->
    let is_bug :=
      existsb (fun n => String.eqb (PyStr.lower n) "bug") names in
    count_issue now parse issue st
    = (mkState (issue_stats (in_window now created) true is_bug (stats st))
         (Dict.modify default_contributor k issue_credit (contributors st))
         (project_tasks st) (stdout st), Ok tt).
Proof.
  intros now parse issue u lg cs xs created closed labels names k st
    Hc Hpc Hx Hne Hpx Hw Hl Hn Hu Hlg Hk is_bug.
  assert (Tx : Py.truthy (JStr xs) = true)
    by (destruct xs; [contradiction | reflexivity]).
  unfold count_issue, bind, lift, py_parse.
  rewrite Hc, Hpc, (get_of_subscript _ _ _ _ Hx), Tx, Hx.
  cbn [rbind]. rewrite Hpx. cbn [rbind].
  rewrite (get_of_subscript _ _ _ _ Hl). cbn [Py.iter].
  rewrite (any_bug_names labels names Hn). fold is_bug.
  rewrite Hw, Hu, Hlg. unfold update_contributor, update_stats, ret.
  rewrite Hk.
  destruct (in_window now created), is_bug; cbn; now rewrite modify_modify.
Qed.

Lemma count_issue_closed_in_window_witness :
  let issue :=
    issue_record (JStr "2024-02-20T08:00:00Z") (JStr "2024-03-05T09:30:00Z")
      ["enhancement"; "BUG"] "carol" in
  count_issue example_now example_parse issue initial_state
  = (mkState (issue_stats false true true (stats initial_state))
       (Dict.modify default_contributor (Py.KStr "carol") issue_credit
          (contributors initial_state))
       (project_tasks initial_state) (stdout initial_state), Ok tt).
Proof.
  refine (count_issue_closed_in_window example_now example_parse
            (issue_record (JStr "2024-02-20T08:00:00Z")
               (JStr "2024-03-05T09:30:00Z") ["enhancement"; "BUG"] "carol")
            (JObj [("login", JStr "carol")]) (JStr "carol")
            "2024-02-20T08:00:00Z" "2024-03-05T09:30:00Z"
            (mkDatetime 1708416000000000 738936)
            (mkDatetime 1709631000000000 738950)
            [JObj [("name", JStr "enhancement")]; JObj [("name", JStr "BUG")]]
            ["enhancement"; "BUG"] (Py.KStr "carol") initial_state
            eq_refl eq_refl eq_refl _ eq_refl eq_refl eq_refl _
            eq_refl eq_refl eq_refl).
  - discriminate.
  - repeat constructor.
Defined.

(** X9. An issue whose closing time is absent, null or before the
    seven-day window is never counted as closed, whatever its labels:
    the closed issues, the closed bugs and the contributors stay as
    they were, and at most the opened issues go up, by one. *)
Theorem count_issue_not_closed_in_window :
  forall (now : Z) (parse : string -> option datetime) (issue c : json)
         (st : state),
    Py.get issue "closed_at" JNull = Ok c ->
    (Py.truthy c = false
     \/ exists xs t, c = JStr xs /\ parse xs = Some t
                     /\ in_window now t = false) ->
    let st' := fst (count_issue now parse issue st) in
    stats_issues_closed (stats st') = stats_issues_closed (stats st)
    /\ stats_bugs_closed (stats st') = stats_bugs_closed (stats st)
    /\ contributors st' = contributors st
    /\ stats_issues_opened (stats st)
       <= stats_issues_opened (stats st')
       <= stats_issues_opened (stats st) + 1.
Proof.
  intros now parse issue c st Hg Hc.
  assert (Hs : forall xs, c = JStr xs -> Py.truthy c = true ->
                          Py.subscript issue "closed_at" = Ok (JStr xs)).
  { intros xs -> T. destruct issue; try discriminate. simpl in *.
    destruct (Py.assoc "closed_at" fields) as [x|];
      [exact Hg | discriminate]. }
  cbv zeta. unfold count_issue, bind, lift.
  destruct (Py.subscript issue "created_at") as [c0|e];
    [|simpl; repeat split; lia].
  destruct (py_parse parse c0) as [created|e]; [|simpl; repeat split; lia].
  rewrite Hg.
  assert (E : (if Py.truthy c
               then do x <- Py.subscript issue "closed_at";
                    do t <- py_parse parse x; Ok (Some t)
               else Ok None)
              = Ok None
              \/ exists t, (if Py.truthy c
                            then do x <- Py.subscript issue "closed_at";
                                 do t <- py_parse parse x; Ok (Some t)
                            else Ok None) = Ok (Some t)
                           /\ in_window now t = false).
  { destruct Hc as [F | (xs & t & -> & Hp & Hw)].
    - left. now rewrite F.
    - destruct (Py.truthy (JStr xs)) eqn:T; [right | now left].
      exists t. rewrite (Hs xs eq_refl eq_refl). unfold py_parse. cbn [rbind].
      rewrite Hp. now split. }
  destruct E as [-> | (t & -> & Hw)].
  - destruct (Py.get issue "labels" (JList [])) as [ls|e]; [|simpl; repeat split; lia].
    destruct (Py.iter ls) as [labels|e]; [|simpl; repeat split; lia].
    destruct (any_bug labels) as [is_bug|e]; [|simpl; repeat split; lia].
    destruct (in_window now created); simpl; repeat split; lia.
  - destruct (Py.get issue "labels" (JList [])) as [ls|e]; [|simpl; repeat split; lia].
    destruct (Py.iter ls) as [labels|e]; [|simpl; repeat split; lia].
    destruct (any_bug labels) as [is_bug|e]; [|simpl; repeat split; lia].
    rewrite Hw. destruct (in_window now created); simpl; repeat split; lia.
Qed.

Lemma count_issue_not_closed_in_window_witness :
  let issue :=
    issue_record (JStr "2024-03-04T10:00:00Z") (JStr "2024-02-20T08:00:00Z")
      ["bug"] "carol" in
  let st' := fst (count_issue example_now example_parse issue initial_state) in
  stats_issues_closed (stats st') = stats_issues_closed (stats initial_state)
  /\ stats_bugs_closed (stats st') = stats_bugs_closed (stats initial_state)
  /\ contributors st' = contributors initial_state
  /\ stats_issues_opened (stats initial_state)
     <= stats_issues_opened (stats st')
     <= stats_issues_opened (stats initial_state) + 1.
Proof.
  refine (count_issue_not_closed_in_window example_now example_parse
            (issue_record (JStr "2024-03-04T10:00:00Z")
               (JStr "2024-02-20T08:00:00Z") ["bug"] "carol")
            (JStr "2024-02-20T08:00:00Z") initial_state eq_refl _).
  right. exists "2024-02-20T08:00:00Z", (mkDatetime 1708416000000000 738936).
  repeat split.
Defined.

(** ** The project-task stage as a whole *)

Lemma get_project_tasks_items (now : Z) (parse : string -> option datetime)
  (strftime : Z -> string) (data : json) (st : state) :
  get_project_tasks now parse strftime data st
  = try_except
      (items <- lift (project_items data) ;;
       for_each items (collect_task now parse strftime))
      (fun e => print (ProjectTasksError e)) st.
Proof.
  unfold get_project_tasks, try_except, project_items, bind, lift.
  destruct (Py.subscript data "data") as [d|e]; cbn [rbind]; [|reflexivity].
  destruct (Py.subscript d "user") as [u|e]; cbn [rbind]; [|reflexivity].
  destruct (Py.subscript u "projectV2") as [p|e]; cbn [rbind]; [|reflexivity].
  destruct (Py.subscript p "items") as [i|e]; cbn [rbind]; [|reflexivity].
  destruct (Py.subscript i "nodes") as [ns|e]; cbn [rbind]; reflexivity.
Qed.

Lemma for_each_collect_task_stdout (now : Z) (parse : string -> option datetime)
  (strftime : Z -> string) (items : list json) (st : state) :
  stdout (fst (for_each items (collect_task now parse strftime) st))
  = stdout st.
Proof.
  apply (preserves_for_each (fun s => stdout s = stdout st)); [|reflexivity].
  intros item s H.
  destruct (collect_task_cases now parse strftime item s)
    as [[e ->] | [-> | (done & t & ->)]]; exact H.
Qed.

(** X10. [get_project_tasks] never raises: whatever the answer is, it
    returns, and it prints at most one diagnostic.  When the answer
    does not have the nested shape down to the items, it prints the
    diagnostic of that failure and changes nothing else. *)
Theorem get_project_tasks_never_raises :
  forall (now : Z) (parse : string -> option datetime)
         (strftime : Z -> string) (data : json) (st : state),
    snd (get_project_tasks now parse strftime data st) = Ok tt
    /\ (stdout (fst (get_project_tasks now parse strftime data st)) = stdout st
        \/ exists e,
             stdout (fst (get_project_tasks now parse strftime data st))
             = (stdout st ++ [ProjectTasksError e])%list)
    /\ forall e, project_items data = Raise e ->
         get_project_tasks now parse strftime data st
         = (mkState (stats st) (contributors st) (project_tasks st)
              (stdout st ++ [ProjectTasksError e]), Ok tt).
Proof.
  intros now parse strftime data st.
  rewrite get_project_tasks_items. unfold try_except, bind, lift.
  destruct (project_items data) as [items|e0].
  - pose proof (for_each_collect_task_stdout now parse strftime items st) as H.
    destruct (for_each items (collect_task now parse strftime) st)
      as [st' [[]|e]]; simpl in *.
    + repeat split; [now left | discriminate].
    + repeat split; [right; exists e; now rewrite H | discriminate].
  - simpl. repeat split; [right; now exists e0|].
    intros e [= ->]. reflexivity.
Qed.

Lemma get_project_tasks_never_raises_witness :
  snd (get_project_tasks example_now example_parse example_strftime
         error_response initial_state) = Ok tt
  /\ get_project_tasks example_now example_parse example_strftime
       error_response initial_state
     = (mkState (stats initial_state) (contributors initial_state)
          (project_tasks initial_state)
          (stdout initial_state ++ [ProjectTasksError KeyError]), Ok tt).
Proof.
  destruct (get_project_tasks_never_raises example_now example_parse
              example_strftime error_response initial_state) as (H1 & _ & H3).
  split; [exact H1 | exact (H3 KeyError eq_refl)].
Defined.

(** ** One board item *)

(** X11. A board item whose update time is inside the seven-day window
    and whose fields give the status list [status_list] is appended to
    the task list with its title, or "Untitled" when it has no content,
    with the first status, or "unknown" when there is none, and with
    the formatted update time; the completed tasks go up by one exactly
    when one of the statuses is "done" or "completed"; nothing else
    changes. *)
Theorem collect_task_in_window :
  forall (now : Z) (parse : string -> option datetime)
         (strftime : Z -> string) (item c title fv : json) (us : string)
         (updated : datetime) (fields : list json)
         (status_list : list string) (st : state),
    Py.subscript item "updatedAt" = Ok (JStr us) ->
    parse us = Some updated ->
    in_window now updated = true ->
    Py.get item "content" JNull = Ok c ->
    (Py.truthy c = false /\ title = JStr "Untitled"
     \/ Py.truthy c = true /\ Py.get c "title" (JStr "Untitled") = Ok title) ->
    Py.subscript item "fieldValues" = Ok fv ->
    Py.subscript fv "nodes" = Ok (JList fields) ->
    collect_statuses fields [] = Ok status_list ->
    collect_task now parse strftime item st
    = (mkState
         (if any_done status_list then incr_tasks_completed (stats st)
          else stats st)
         (contributors st)
         (project_tasks st
          ++ [mkTask title (hd "unknown" status_list)
                (strftime (instant updated))])
         (stdout st), Ok tt).
Proof.
  intros now parse strftime item c title fv us updated fields status_list st
    Hu Hp Hw Hc Ht Hf Hn Hs.
  assert (E : (if Py.truthy c
               then do c' <- Py.subscript item "content";
                    Py.get c' "title" (JStr "Untitled")
               else Ok (JStr "Untitled")) = Ok title).
  { destruct Ht as [[F ->] | [T Hg]]; [now rewrite F|]. rewrite T.
    assert (Hsub : Py.subscript item "content" = Ok c).
    { destruct item; try discriminate. simpl in *.
      destruct (Py.assoc "content" fields0) as [x|]; [exact Hc|].
      injection Hc as <-. discriminate. }
    rewrite Hsub. exact Hg. }
  unfold collect_task, bind, lift, py_parse.
  rewrite Hu, Hp, Hc, E, Hf, Hn. cbn [Py.iter]. rewrite Hs, Hw.
  unfold update_stats, append_task, ret.
  destruct status_list as [|s sl]; [reflexivity|].
  destruct (any_done (s :: sl)); reflexivity.
Qed.

Lemma collect_task_in_window_witness :
  collect_task example_now example_parse example_strftime fresh_item
    initial_state
  = (mkState
       (if any_done ["write the changelog"; "in progress"]
        then incr_tasks_completed (stats initial_state)
        else stats initial_state)
       (contributors initial_state)
       (project_tasks initial_state
        ++ [mkTask (JStr "Write the changelog")
              (hd "unknown" ["write the changelog"; "in progress"])
              (example_strftime 1709631000000000)])
       (stdout initial_state), Ok tt).
Proof.
  refine (collect_task_in_window example_now example_parse example_strftime
            fresh_item (JObj [("title", JStr "Write the changelog")])
            (JStr "Write the changelog") _ "2024-03-05T09:30:00Z"
            (mkDatetime 1709631000000000 738950) _
            ["write the changelog"; "in progress"] initial_state
            eq_refl eq_refl eq_refl eq_refl _ eq_refl eq_refl eq_refl).
  right. split; reflexivity.
Defined.

(** ** More on the retrieval of the previous KPI *)

Lemma int_of_digits_from_nonneg (acc : Z) (s : string) :
  0 <= acc -> 0 <= PyStr.int_of_digits_from acc s.
Proof.
  revert acc. induction s as [|c s IH]; intros acc H;
    cbn [PyStr.int_of_digits_from]; [exact H|].
  apply IH. unfold PyStr.digit_value.
  apply Z.add_nonneg_nonneg; [lia | apply Nat2Z.is_nonneg].
Qed.

Lemma float_of_decimal_nonneg (s : string) : (0 <= float_of_decimal s)%Q.
Proof.
  unfold float_of_decimal.
  destruct (PyStr.take_digits s) as [i r].
  assert (H : forall t, (0 <= inject_Z (PyStr.int_of_digits t))%Q).
  { intros t. unfold Qle. simpl. rewrite Z.mul_1_r.
    unfold PyStr.int_of_digits. now apply int_of_digits_from_nonneg. }
  destruct r as [|c f]; [apply H|].
  destruct (Ascii.eqb c ".") eqn:E.
  - apply Ascii.eqb_eq in E. subst c. rewrite Qred_correct.
    unfold Qle. simpl. rewrite ?Z.mul_1_r.
    unfold PyStr.int_of_digits. now apply int_of_digits_from_nonneg.
  - destruct c as [[] [] [] [] [] [] [] []]; try apply H. discriminate.
Qed.

Lemma scan_lines_nonneg (ls : list string) (v : Q) :
  scan_lines ls = Some v -> (0 <= v)%Q.
Proof.
  induction ls as [|line ls IH]; simpl; [discriminate|].
  destruct (PyStr.contains "This Week KPI:" line); [|exact IH].
  destruct (Re.search_bold_decimal line) as [g|]; [|exact IH].
  intros [= <-]. apply float_of_decimal_nonneg.
Qed.

(** X12. Whatever the directory holds, a value that the retrieval
    returns is never negative: the pattern has no sign, and the
    fallback is 0. *)
Theorem previous_week_kpi_nonneg :
  forall (reports_dir : option directory) (current_week : Z) (v : Q),
    get_previous_week_kpi reports_dir current_week = Ok v -> (0 <= v)%Q.
Proof.
  intros [dir|] w v; [|intros [= <-]; discriminate].
  unfold get_previous_week_kpi.
  generalize (sorted_reverse
                (filter (PyStr.startswith "Weekly_Report_Week_")
                   (map fst dir))).
  intros files. induction files as [|f files IH]; simpl.
  - intros [= <-]. discriminate.
  - destruct (week_of f) as [n|e]; simpl; [|discriminate].
    destruct (n <? w); [|exact IH].
    destruct (Py.assoc f dir) as [text|]; [|discriminate].
    destruct (scan_lines (PyStr.lines text)) as [x|] eqn:E; [|exact IH].
    intros [= <-]. now apply scan_lines_nonneg with (PyStr.lines text).
Qed.

Lemma previous_week_kpi_nonneg_witness :
  get_previous_week_kpi (Some example_reports) 10 = Ok (15 # 2)
  /\ (0 <= 15 # 2)%Q.
Proof.
  split; [reflexivity|].
  exact (previous_week_kpi_nonneg (Some example_reports) 10 (15 # 2) eq_refl).
Defined.

Lemma assoc_filter {A} (p : string -> bool) (f : string)
  (l : list (string * A)) :
  p f = true ->
  Py.assoc f (filter (fun kv => p (fst kv)) l) = Py.assoc f l.
Proof.
  intros H. induction l as [|[k v] l IH]; simpl; [reflexivity|].
  destruct (String.eqb f k) eqn:E.
  - apply String.eqb_eq in E. subst k. rewrite H. simpl.
    now rewrite String.eqb_refl.
  - destruct (p k); simpl; [now rewrite E | exact IH].
Qed.

Lemma map_fst_filter {A} (p : string -> bool) (l : list (string * A)) :
  map fst (filter (fun kv => p (fst kv)) l) = filter p (map fst l).
Proof.
  induction l as [|[k v] l IH]; simpl; [reflexivity|].
  destruct (p k); simpl; now rewrite IH.
Qed.

Lemma filter_filter {A} (p : A -> bool) (l : list A) :
  filter p (filter p l) = filter p l.
Proof.
  induction l as [|x l IH]; simpl; [reflexivity|].
  destruct (p x) eqn:E; simpl; [now rewrite E, IH | exact IH].
Qed.

Lemma scan_reports_ext (dir dir' : directory) (w : Z) (files : list string) :
  (forall f, In f files -> Py.assoc f dir = Py.assoc f dir') ->
  scan_reports dir w files = scan_reports dir' w files.
Proof.
  induction files as [|f files IH]; intros H; simpl; [reflexivity|].
  rewrite <- (H f (or_introl eq_refl)).
  rewrite IH by (intros g Hg; apply H; now right). reflexivity.
Qed.

(** X13. Only the files whose names start with "Weekly_Report_Week_"
    count: the retrieval returns the same on a directory and on that
    directory without its other files, whatever they hold; and a
    directory that does not exist is read as an empty one. *)
Theorem previous_week_kpi_only_reports :
  forall (dir : directory) (current_week : Z),
    get_previous_week_kpi (Some dir) current_week
    = get_previous_week_kpi
        (Some (filter (fun kv => PyStr.startswith "Weekly_Report_Week_"
                                   (fst kv)) dir))
        current_week
    /\ get_previous_week_kpi None current_week
       = get_previous_week_kpi (Some []) current_week.
Proof.
  intros dir w. split; [|reflexivity].
  unfold get_previous_week_kpi.
  rewrite map_fst_filter, filter_filter.
  apply scan_reports_ext. intros f Hf.
  symmetry. apply assoc_filter.
  apply (Permutation_in _ (sorted_reverse_perm _)) in Hf.
  now apply filter_In in Hf.
Qed.

(** X14. A file that has the prefix and no digit in its name makes the
    retrieval raise [IndexError] as soon as the scan reaches it; it
    does when that file is the first in descending order. *)
Theorem previous_week_kpi_name_without_number :
  forall (dir : directory) (current_week : Z) (f : string)
         (others : list string),
    report_files dir = f :: others ->
    PyStr.findall_digits f = [] ->
    get_previous_week_kpi (Some dir) current_week = Raise IndexError.
Proof.
  intros dir w f others Hf Hd.
  unfold get_previous_week_kpi. fold (report_files dir). rewrite Hf.
  cbn [scan_reports]. unfold week_of. rewrite Hd. reflexivity.
Qed.

Lemma previous_week_kpi_name_without_number_witness :
  get_previous_week_kpi (Some reports_with_draft) 10 = Raise IndexError.
Proof.
  exact (previous_week_kpi_name_without_number reports_with_draft 10
           "Weekly_Report_Week_draft.md" ["Weekly_Report_Week_8.md"]
           eq_refl eq_refl).
Defined.

(** ** The file that one run writes and the next run reads *)

Lemma findall_digits_from_digits (cur d rest : string) :
  all_digits d = true ->
  PyStr.findall_digits_from cur (d ++ rest)
  = PyStr.findall_digits_from (cur ++ d) rest.
Proof.
  revert cur. induction d as [|c d IH]; intros cur H.
  - cbn [append]. f_equal. clear. induction cur; simpl; congruence.
  - cbn [all_digits] in H. apply andb_true_iff in H as [Hc Hd].
    cbn [append PyStr.findall_digits_from]. rewrite Hc, (IH _ Hd).
    f_equal. rewrite append_assoc. reflexivity.
Qed.

Lemma startswith_app (p r : string) : PyStr.startswith p (p ++ r) = true.
Proof.
  unfold PyStr.startswith. induction p as [|a p IH]; simpl.
  - now destruct r.
  - destruct (ascii_dec a a); [exact IH | contradiction].
Qed.

Lemma findall_digits_from_others (p r : string) :
  no_digits p = true ->
  PyStr.findall_digits_from "" (p ++ r) = PyStr.findall_digits_from "" r.
Proof.
  induction p as [|c p IH]; intros H; [reflexivity|].
  cbn [no_digits] in H. apply andb_true_iff in H as [Hc Hp].
  apply negb_true_iff in Hc.
  cbn [append PyStr.findall_digits_from]. rewrite Hc. now apply IH.
Qed.

Lemma week_of_report_filename (week_number : Z) :
  0 <= week_number ->
  week_of (report_filename week_number) = Ok week_number
  /\ PyStr.startswith "Weekly_Report_Week_" (report_filename week_number)
     = true.
Proof.
  intros H. split; [|apply startswith_app].
  pose proof (str_of_Z_nonempty week_number H) as N.
  pose proof (all_digits_str_of_Z week_number H) as D.
  pose proof (int_of_str_of_Z week_number H) as I.
  unfold week_of, report_filename, PyStr.findall_digits.
  set (d := PyStr.str_of_Z week_number) in *. clearbody d.
  rewrite findall_digits_from_others by reflexivity.
  rewrite findall_digits_from_digits by exact D.
  destruct d as [|c d]; [contradiction|].
  cbn [append PyStr.findall_digits_from].
  change (PyStr.is_digit ".") with false.
  change (PyStr.is_digit "m") with false.
  change (PyStr.is_digit "d") with false.
  cbv iota. cbn [rev app]. now rewrite I.
Qed.

Lemma assoc_write_file (name text : string) (dir : directory) :
  Py.assoc name (write_file name text dir) = Some text.
Proof.
  induction dir as [|[n t] dir IH]; simpl.
  - now rewrite String.eqb_refl.
  - destruct (String.eqb name n) eqn:E; simpl; now rewrite E.
Qed.

Lemma assoc_write_file_other (name text f : string) (dir : directory) :
  f <> name -> Py.assoc f (write_file name text dir) = Py.assoc f dir.
Proof.
  intros N. induction dir as [|[n t] dir IH]; simpl.
  - apply String.eqb_neq in N. now rewrite N.
  - destruct (String.eqb name n) eqn:E; simpl.
    + apply String.eqb_eq in E. subst n.
      apply String.eqb_neq in N. now rewrite N.
    + now rewrite IH.
Qed.

Lemma In_write_file (name text : string) (dir : directory) :
  In name (map fst (write_file name text dir)).
Proof.
  induction dir as [|[n t] dir IH]; simpl; [now left|].
  destruct (String.eqb name n) eqn:E; simpl.
  - apply String.eqb_eq in E. now left.
  - now right.
Qed.

(** X15. After a run has written the report of week [w] with the text
    [text], the directory holds that text under the name of the week,
    every other file is as it was, and the next retrieval meets that
    name among the reports and reads the week number [w] from it. *)
Theorem written_report_is_found :
  forall (reports_dir : option directory) (week_number : Z) (text : string),
    0 <= week_number ->
    let dir' := reports_after reports_dir week_number text in
    let before := match reports_dir with Some dir => dir | None => [] end in
    Py.assoc (report_filename week_number) dir' = Some text
    /\ (forall f, f <> report_filename week_number ->
                  Py.assoc f dir' = Py.assoc f before)
    /\ In (report_filename week_number) (report_files dir')
    /\ week_of (report_filename week_number) = Ok week_number.
Proof.
  intros reports_dir w text H dir' before.
  destruct (week_of_report_filename w H) as [Hw Hp].
  split; [apply assoc_write_file|].
  split; [intros f N; now apply assoc_write_file_other|].
  split; [|exact Hw].
  unfold report_files.
  apply (Permutation_in _ (Permutation_sym (sorted_reverse_perm _))).
  apply filter_In. split; [apply In_write_file | exact Hp].
Qed.

Lemma written_report_is_found_witness :
  let dir' := reports_after (Some example_reports) 10 "text" in
  Py.assoc (report_filename 10) dir' = Some "text"
  /\ (forall f, f <> report_filename 10 ->
                Py.assoc f dir' = Py.assoc f example_reports)
  /\ In (report_filename 10) (report_files dir')
  /\ week_of (report_filename 10) = Ok 10.
Proof.
  apply (written_report_is_found (Some example_reports) 10 "text"). lia.
Defined.

Lemma no_char_app (c : ascii) (a b : string) :
  no_char c (a ++ b) = no_char c a && no_char c b.
Proof.
  induction a as [|x a IH]; simpl; [reflexivity|].
  now rewrite IH, andb_assoc.
Qed.

Lemma no_K_digits (d : string) : all_digits d = true -> no_char "K" d = true.
Proof.
  induction d as [|c d IH]; simpl; [reflexivity|].
  intros H. apply andb_true_iff in H as [Hc Hd]. rewrite (IH Hd), andb_true_r.
  destruct (Ascii.eqb c "K") eqn:E; [|reflexivity].
  apply Ascii.eqb_eq in E. subst c. discriminate.
Qed.

Lemma no_K_str_of_Z (n : Z) : no_char "K" (PyStr.str_of_Z n) = true.
Proof.
  destruct n as [|p|p]; [reflexivity | |].
  - rewrite str_of_Z_pos. apply no_K_digits, all_digits_uint.
  - unfold PyStr.str_of_Z. cbn [Z.to_int NilEmpty.string_of_int no_char].
    apply no_K_digits, all_digits_uint.
Qed.

Lemma startswith_split (p s : string) :
  PyStr.startswith p s = true -> exists r, s = p ++ r.
Proof.
  unfold PyStr.startswith. revert s.
  induction p as [|a p IH]; intros s H.
  - exists s. reflexivity.
  - destruct s as [|b s]; simpl in H; [discriminate|].
    destruct (ascii_dec a b) as [->|]; [|discriminate].
    destruct (IH s H) as [r ->]. now exists r.
Qed.

Lemma no_K_no_marker (s : string) :
  no_char "K" s = true -> PyStr.contains "This Week KPI:" s = false.
Proof.
  induction s as [|c s IH]; intros H.
  - reflexivity.
  - cbn [PyStr.contains].
    destruct (PyStr.startswith "This Week KPI:" (String c s)) eqn:E.
    + apply startswith_split in E as [r E]. rewrite E in H. discriminate.
    + cbn [no_char] in H. apply andb_true_iff in H as [_ H]. now apply IH.
Qed.

Lemma scan_skip_block (cur t r : string) :
  no_char "K" cur = true -> no_char "K" t = true ->
  scan_lines (PyStr.lines_from cur (t ++ newline ++ r))
  = scan_lines (PyStr.lines_from "" r).
Proof.
  revert cur. induction t as [|c t IH]; intros cur Hc Ht.
  - cbn [append newline PyStr.lines_from Ascii.eqb Bool.eqb]. cbn [scan_lines].
    rewrite no_K_no_marker; [reflexivity|].
    rewrite no_char_app, Hc. reflexivity.
  - cbn [no_char] in Ht. apply andb_true_iff in Ht as [Hx Ht].
    cbn [append PyStr.lines_from].
    destruct (Ascii.eqb c "010") eqn:E.
    + cbn [scan_lines]. rewrite no_K_no_marker.
      * now apply IH.
      * rewrite no_char_app, Hc. cbn [no_char]. now rewrite Hx.
    + apply IH; [|exact Ht].
      rewrite no_char_app, Hc. cbn [no_char]. now rewrite Hx.
Qed.

Lemma scan_skip_chunks (pre : list string) (r : string) :
  Forall skippable pre ->
  scan_lines (PyStr.lines_from "" (fold_right append r pre))
  = scan_lines (PyStr.lines_from "" r).
Proof.
  induction 1 as [|chunk pre (t & -> & Ht) _ IH]; [reflexivity|].
  cbn [fold_right]. rewrite append_assoc.
  now rewrite scan_skip_block.
Qed.

Lemma concat_empty_app (l : list string) (rest : string) :
  String.concat "" l ++ rest = fold_right append rest l.
Proof.
  induction l as [|x l IH]; [reflexivity|].
  destruct l as [|y l]; [reflexivity|].
  change (String.concat "" (x :: y :: l))
    with (x ++ "" ++ String.concat "" (y :: l)).
  cbn [append fold_right] in *. now rewrite append_assoc, IH.
Qed.

Lemma skippable_line (a x : string) :
  no_char "K" a = true -> no_char "K" x = true ->
  skippable (a ++ x ++ newline).
Proof.
  intros Ha Hx. exists (a ++ x). split; [now rewrite append_assoc|].
  now rewrite no_char_app, Ha, Hx.
Qed.

Lemma skippable_two_lines (a x : string) :
  no_char "K" a = true -> no_char "K" x = true ->
  skippable (a ++ x ++ newline ++ newline).
Proof.
  intros Ha Hx. exists (a ++ x ++ newline).
  split; [now rewrite !append_assoc|].
  now rewrite !no_char_app, Ha, Hx.
Qed.

Lemma skippable_range (a x b y : string) :
  no_char "K" a = true -> no_char "K" x = true ->
  no_char "K" b = true -> no_char "K" y = true ->
  skippable (a ++ x ++ b ++ y ++ newline ++ newline).
Proof.
  intros Ha Hx Hb Hy. exists (a ++ x ++ b ++ y ++ newline).
  split; [now rewrite !append_assoc|].
  now rewrite !no_char_app, Ha, Hx, Hb, Hy.
Qed.

Lemma skippable_title (a : string) :
  no_char "K" a = true -> skippable (a ++ newline).
Proof. intros Ha. now exists a. Qed.

Lemma calculate_kpi_halves (st : state) :
  (calculate_kpi st
   == (4 * stats_add (stats st) + 5 * stats_fix (stats st)
       + 4 * stats_bugs_closed (stats st)
       + 6 * stats_tasks_completed (stats st)) # 2)%Q.
Proof.
  unfold calculate_kpi, Qeq, Qplus, Qmult, inject_Z.
  cbn -[Z.mul Z.add]. lia.
Qed.

Lemma kpi_line_comp (x y : Q) : (x == y)%Q -> kpi_line x = kpi_line y.
Proof.
  intros H. unfold kpi_line, str_of_float.
  assert (E : Qfloor (2 * x) = Qfloor (2 * y)) by now rewrite H.
  now rewrite E.
Qed.

Lemma lines_from_first_line (cur t rest : string) :
  no_newline t = true ->
  PyStr.lines_from cur (t ++ newline ++ rest)
  = (cur ++ t ++ newline) :: PyStr.lines_from "" rest.
Proof.
  revert cur. induction t as [|c t IH]; intros cur T.
  - reflexivity.
  - cbn [no_newline] in T. apply andb_true_iff in T as [Tc Tt].
    apply negb_true_iff in Tc.
    cbn [append PyStr.lines_from]. rewrite Tc, (IH _ Tt).
    now rewrite append_assoc.
Qed.

Lemma scan_lines_first (line : string) (more : list string) (v : Q) :
  scan_lines [line] = Some v -> scan_lines (line :: more) = Some v.
Proof.
  cbn [scan_lines].
  destruct (PyStr.contains "This Week KPI:" line); [|discriminate].
  destruct (Re.search_bold_decimal line); [trivial | discriminate].
Qed.

Lemma kpi_line_then_rest (h : Z) (rest : string) :
  0 <= h ->
  scan_lines (PyStr.lines_from "" (kpi_line (h # 2) ++ rest))
  = Some (Qred (h # 2)).
Proof.
  intros Hh. pose proof (kpi_line_round_trip_all h Hh) as R.
  unfold kpi_line in *. rewrite (str_of_float_half h Hh) in *.
  set (t := "- This Week KPI: **"
            ++ (PyStr.str_of_Z (h / 2) ++ "."
                ++ (if Z.even h then "0" else "5")) ++ "**").
  assert (T : no_newline t = true).
  { unfold t. rewrite !no_newline_app.
    rewrite (all_digits_no_newline (PyStr.str_of_Z (h / 2)))
      by (apply all_digits_str_of_Z, Z.div_pos; lia).
    now destruct (Z.even h). }
  assert (E : forall r,
             "- This Week KPI: **"
             ++ (PyStr.str_of_Z (h / 2) ++ "."
                 ++ (if Z.even h then "0" else "5"))
             ++ "**" ++ String "010" r
             = t ++ newline ++ r).
  { intros r. unfold t, newline. rewrite !append_assoc. reflexivity. }
  assert (E1 : ("- This Week KPI: **"
                ++ (PyStr.str_of_Z (h / 2) ++ "."
                    ++ (if Z.even h then "0" else "5"))
                ++ "**" ++ String "010" "") ++ rest
               = t ++ newline ++ rest).
  { rewrite <- E. rewrite !append_assoc. reflexivity. }
  rewrite E1, lines_from_first_line by exact T.
  apply scan_lines_first.
  unfold PyStr.lines in R. rewrite (E "") in R.
  rewrite lines_from_first_line in R by exact T.
  cbn [append] in *. exact R.
Qed.

Lemma report_head_scanned (week_number : Z) (since now_iso : string)
  (s : Stats) (h : Z) (rest : string) :
  0 <= h ->
  no_char "K" since = true -> no_char "K" now_iso = true ->
  scan_lines
    (PyStr.lines (report_head week_number since now_iso s (h # 2) ++ rest))
  = Some (Qred (h # 2)).
Proof.
  intros Hh Hs Hn. unfold report_head, PyStr.lines.
  rewrite concat_empty_app.
  rewrite <- (firstn_skipn 12 (report_writes _ _ _ _ _)), fold_right_app.
  cbn [report_writes firstn skipn].
  rewrite scan_skip_chunks.
  - cbn [fold_right].
    change (PyStr.lines_from "" (("## KPI Score Summary" ++ newline)
                                 ++ kpi_line (h # 2) ++ rest))
      with (("## KPI Score Summary" ++ newline)
            :: PyStr.lines_from "" (kpi_line (h # 2) ++ rest)).
    cbn [scan_lines].
    change (PyStr.contains "This Week KPI:" ("## KPI Score Summary" ++ newline))
      with false. cbv iota.
    now apply kpi_line_then_rest.
  - repeat (apply Forall_cons;
            [first [ apply skippable_range
                   | apply skippable_two_lines
                   | apply skippable_line
                   | apply skippable_title ];
             first [reflexivity | assumption | apply no_K_str_of_Z]|]).
    apply Forall_nil.
Qed.



(** ** The badges of one contributor *)

Lemma three_days_absent (cs : dict Contributor) (c : Py.key) :
  ~ In c (Dict.keys cs) -> three_days cs c = false.
Proof.
  unfold three_days. intros H.
  destruct (Dict.lookup c cs) as [data|] eqn:E; [|reflexivity].
  exfalso. apply H. apply lookup_In in E.
  change c with (fst (c, data)). now apply in_map.
Qed.

Lemma badges_of_award_consistent (cs : dict Contributor) (c : Py.key)
  (badges : dict (list string)) :
  NoDup (Dict.keys cs) ->
  badges_of (award_consistent cs badges) c
  = (badges_of badges c
     ++ badge_if (three_days cs c) "Consistent Contributor")%list.
Proof.
  revert badges. induction cs as [|[k data] cs IH]; intros badges N.
  - simpl. now rewrite List.app_nil_r.
  - inversion N as [|? ? Nk Ncs]; subst.
    cbn [award_consistent]. rewrite (IH _ Ncs).
    unfold three_days at 2. cbn [Dict.lookup].
    destruct (Py.key_eqb c k) eqn:E.
    + apply key_eqb_eq in E. subst c.
      rewrite (three_days_absent cs k Nk). cbn [badge_if].
      rewrite List.app_nil_r.
      destruct (3 <=? Z.of_nat (List.length (active_days data))).
      * rewrite badges_of_award, key_eqb_refl. reflexivity.
      * cbn [badge_if]. now rewrite List.app_nil_r.
    + fold (three_days cs c).
      destruct (3 <=? Z.of_nat (List.length (active_days data)));
        [|reflexivity].
      rewrite badges_of_award, E. reflexivity.
Qed.

Lemma badges_of_award_if (b : bool) (k c : Py.key) (label : string)
  (badges : dict (list string)) :
  badges_of (if b then award k label badges else badges) c
  = (badges_of badges c ++ badge_if (Py.key_eqb c k && b) label)%list.
Proof.
  destruct b.
  - rewrite badges_of_award, andb_true_r.
    destruct (Py.key_eqb c k) eqn:E; cbn [badge_if].
    + apply key_eqb_eq in E. now subst.
    + now rewrite List.app_nil_r.
  - rewrite andb_false_r. cbn [badge_if]. now rewrite List.app_nil_r.
Qed.

(** X17. With one entry per contributor, the badges of a contributor
    are, in this order and each at most once: "Top Contributor" when
    they are the one picked for the KPI, "Bug Squasher" when picked for
    the bug fixes with a count above 0, "Most Active" when picked for
    the total of actions, "Feature Creator" and "Code Refactorer" when
    picked for the add-commits and the refactor-commits with a count
    above 0, and "Consistent Contributor" when they have at least three
    active days. *)
Theorem badges_in_order :
  forall (st : state) (c : Py.key),
    keys_unique st ->
    badges_of (assign_badges st) c = expected_badges (contributors st) c.
Proof.
  intros st c N. unfold keys_unique in N.
  unfold assign_badges, expected_badges, wins.
  destruct (contributors st) as [|p cs] eqn:E.
  - reflexivity.
  - cbv zeta. cbn [py_max]. rewrite badges_of_award_consistent by exact N.
    rewrite !andb_true_r.
    rewrite (badges_of_award_if (refactor_commits _ >? 0)).
    rewrite (badges_of_award_if (add_commits _ >? 0)).
    rewrite (badges_of_award_if true), andb_true_r.
    rewrite (badges_of_award_if (bug_fixes _ >? 0)).
    rewrite (badges_of_award_if true), andb_true_r.
    cbn [badges_of Dict.lookup app].
    rewrite <- !List.app_assoc. reflexivity.
Qed.

Lemma badges_in_order_witness :
  keys_unique tied_state
  /\ badges_of (assign_badges tied_state) (Py.KStr "alice")
     = expected_badges (contributors tied_state) (Py.KStr "alice").
Proof.
  assert (N : keys_unique tied_state).
  { unfold keys_unique. simpl. repeat constructor; simpl; intuition discriminate. }
  split; [exact N|].
  exact (badges_in_order tied_state (Py.KStr "alice") N).
Defined.

(** Among contributors with the same greatest score the first one in
    the order of the dictionary holds the badge: alice before bob for
    the KPI and the bug fixes, carol before both for the actions. *)
Example tied_badges :
  assign_badges tied_state
  = [(Py.KStr "alice", ["Top Contributor"; "Bug Squasher"]);
     (Py.KStr "carol", ["Most Active"])].
Proof. reflexivity. Qed.

(** X18. Each of the badges "Bug Squasher", "Feature Creator" and "Code
    Refactorer" is withheld from everyone when no contributor has a
    count above 0 in the field that it looks at, and otherwise is held
    by exactly one contributor, one whose count is the greatest. *)
Theorem positive_badges_rule :
  forall (st : state) (label : string) (f : Contributor -> Z),
    In (label, f) positive_badges ->
    ((forall x, In x (contributors st) -> f (snd x) <= 0) ->
     forall c, ~ In label (badges_of (assign_badges st) c))
    /\ ((exists x, In x (contributors st) /\ 0 < f (snd x)) ->
        exists w, In w (contributors st)
                  /\ 0 < f (snd w)
                  /\ (forall x, In x (contributors st) -> f (snd x) <= f (snd w))
                  /\ forall c, In label (badges_of (assign_badges st) c)
                               <-> c = fst w).
Proof.
  intros st label f Hl.
  destruct (contributors st) as [|p cs] eqn:E.
  - split.
    + intros _ c. unfold assign_badges. rewrite E. intros [].
    + intros (x & [] & _).
  - assert (G : forall x, In x (p :: cs) ->
                          f (snd x) <= f (snd (max_from Z.gtb
                                                 (fun y => f (snd y)) p cs)))
      by (intros x Hx;
          apply (max_from_greatest Z.gtb Z.le (fun y => f (snd y))
                   Z.le_refl Z.le_trans Zgtb_true Zgtb_false p cs x Hx)).
    pose proof (max_from_In Z.gtb (fun y => f (snd y)) p cs) as Hin.
    assert (Hiff : forall c,
               In label (badges_of (assign_badges st) c)
               <-> c = fst (max_from Z.gtb (fun y => f (snd y)) p cs)
                   /\ 0 < f (snd (max_from Z.gtb (fun y => f (snd y)) p cs))).
    { intros c. rewrite (In_assign_badges st p cs c label E).
      destruct Hl as [[= <- <-] | [[= <- <-] | [[= <- <-] | []]]];
        (split;
         [ intros [(H & _) | [(H & K) | [(H & _) | [(H & K) | [(H & K) | (H & _)]]]]];
           try discriminate; exact K
         | intros K; auto 7 ]). }
    split.
    + intros Hall c Hc. apply Hiff in Hc as [_ Hpos].
      specialize (Hall _ Hin). lia.
    + intros (x & Hx & Hpos).
      exists (max_from Z.gtb (fun y => f (snd y)) p cs).
      specialize (G x Hx).
      split; [exact Hin|]. split; [lia|]. split; [intros y Hy; now apply
        (max_from_greatest Z.gtb Z.le (fun y => f (snd y))
           Z.le_refl Z.le_trans Zgtb_true Zgtb_false p cs y Hy)|].
      intros c. rewrite Hiff. split; [now intros [H _] | intros ->; split; [reflexivity | lia]].
Qed.

Lemma positive_badges_rule_witness :
  (forall c, ~ In "Feature Creator" (badges_of (assign_badges tied_state) c))
  /\ exists w, In w (contributors tied_state)
               /\ 0 < bug_fixes (snd w)
               /\ (forall x, In x (contributors tied_state) ->
                             bug_fixes (snd x) <= bug_fixes (snd w))
               /\ forall c, In "Bug Squasher"
                              (badges_of (assign_badges tied_state) c)
                            <-> c = fst w.
Proof.
  split.
  - apply (proj1 (positive_badges_rule tied_state "Feature Creator"
                    add_commits (or_intror (or_introl eq_refl)))).
    intros x [<- | [<- | [<- | []]]]; simpl; lia.
  - apply (proj2 (positive_badges_rule tied_state "Bug Squasher"
                    bug_fixes (or_introl eq_refl))).
    exists (Py.KStr "alice", mkContributor (5 # 2) 1 1 0 0 [738949]).
    split; [right; left; reflexivity | simpl; lia].
Defined.

Section FirstGreatest.

Context {A K : Type}.
Variable gtb : K -> K -> bool.
Variable key : A -> K.

Lemma max_from_stays (w : A) (after : list A) :
  (forall x, In x after -> gtb (key x) (key w) = false) ->
  max_from gtb key w after = w.
Proof.
  induction after as [|x after IH]; intros H; [reflexivity|].
  cbn [max_from]. rewrite (H x (or_introl eq_refl)).
  apply IH. intros y Hy. apply H. now right.
Qed.

Lemma max_from_first_greatest (best w : A) (before after : list A) :
  gtb (key w) (key best) = true ->
  (forall x, In x before -> gtb (key w) (key x) = true) ->
  (forall x, In x after -> gtb (key x) (key w) = false) ->
  max_from gtb key best (before ++ w :: after) = w.
Proof.
  revert best. induction before as [|x before IH]; intros best Hb Hbefore Hafter.
  - cbn [app max_from]. rewrite Hb. now apply max_from_stays.
  - cbn [app max_from].
    destruct (gtb (key x) (key best)); apply IH; auto.
    + apply Hbefore. now left.
    + intros y Hy. apply Hbefore. now right.
    + intros y Hy. apply Hbefore. now right.
Qed.

Lemma py_max_first_greatest (w : A) (before after : list A) :
  (forall x, In x before -> gtb (key w) (key x) = true) ->
  (forall x, In x after -> gtb (key x) (key w) = false) ->
  py_max gtb key (before ++ w :: after) = Some w.
Proof.
  intros Hbefore Hafter. destruct before as [|b before]; cbn [app py_max].
  - now rewrite max_from_stays.
  - rewrite max_from_first_greatest; auto.
    + apply Hbefore. now left.
    + intros y Hy. apply Hbefore. now right.
Qed.

End FirstGreatest.

Lemma Qgtb_lt (a b : Q) : (b < a)%Q -> Qgtb a b = true.
Proof.
  intros H. unfold Qgtb. apply negb_true_iff.
  destruct (Qle_bool a b) eqn:E; [|reflexivity].
  apply Qle_bool_iff in E. exfalso. now apply (Qlt_not_le b a).
Qed.

Lemma Qgtb_le (a b : Q) : (a <= b)%Q -> Qgtb a b = false.
Proof.
  intros H. unfold Qgtb. apply negb_false_iff. now apply Qle_bool_iff.
Qed.

(** X19. Ties go to the first contributor met: when a contributor has
    a KPI above the KPI of every contributor before them in the order
    of the dictionary, and at least the KPI of every contributor after
    them, they hold "Top Contributor" and no one else does; the same
    holds of "Most Active" with the total of actions. *)
Theorem first_greatest_wins :
  forall (st : state) (before after : dict Contributor) (k : Py.key)
         (r : Contributor),
    contributors st = (before ++ (k, r) :: after)%list ->
    ((forall x, In x before -> (kpi (snd x) < kpi r)%Q) ->
     (forall x, In x after -> (kpi (snd x) <= kpi r)%Q) ->
     forall c, In "Top Contributor" (badges_of (assign_badges st) c) <-> c = k)
    /\ ((forall x, In x before -> total_actions (snd x) < total_actions r) ->
        (forall x, In x after -> total_actions (snd x) <= total_actions r) ->
        forall c, In "Most Active" (badges_of (assign_badges st) c) <-> c = k).
Proof.
  intros st before after k r E.
  assert (N : exists p cs, contributors st = p :: cs)
    by (rewrite E; destruct before; simpl; eauto).
  destruct N as (p & cs & Ep).
  split; intros Hb Ha c; rewrite (In_assign_badges st p cs c _ Ep).
  - assert (M : py_max Qgtb (fun x => kpi (snd x)) (p :: cs) = Some (k, r)).
    { rewrite <- Ep, E. apply py_max_first_greatest.
      - intros x Hx. apply Qgtb_lt. now apply Hb.
      - intros x Hx. apply Qgtb_le. now apply Ha. }
    cbn [py_max] in M. injection M as ->. cbn [fst].
    split.
    + intros [(_ & H) | [(H & _) | [(H & _) | [(H & _) | [(H & _) | (H & _)]]]]];
        try discriminate; exact H.
    + intros ->. left. now split.
  - assert (M : py_max Z.gtb (fun x => total_actions (snd x)) (p :: cs)
                = Some (k, r)).
    { rewrite <- Ep, E. apply py_max_first_greatest.
      - intros x Hx. apply Z.gtb_lt. now apply Hb.
      - intros x Hx. rewrite Z.gtb_ltb. apply Z.ltb_ge. now apply Ha. }
    cbn [py_max] in M. injection M as ->. cbn [fst].
    split.
    + intros [(H & _) | [(H & _) | [(_ & H) | [(H & _) | [(H & _) | (H & _)]]]]];
        try discriminate; exact H.
    + intros ->. right; right; left. now split.
Qed.

Lemma first_greatest_wins_witness :
  (forall c, In "Top Contributor" (badges_of (assign_badges tied_state) c)
             <-> c = Py.KStr "alice")
  /\ (forall c, In "Most Active" (badges_of (assign_badges tied_state) c)
                <-> c = Py.KStr "carol").
Proof.
  split.
  - apply (proj1 (first_greatest_wins tied_state
                    [(Py.KStr "carol", mkContributor 1 0 1 0 0 [738949])]
                    [(Py.KStr "bob", mkContributor (5 # 2) 1 1 0 0 [738950])]
                    (Py.KStr "alice") (mkContributor (5 # 2) 1 1 0 0 [738949])
                    eq_refl)).
    + intros x [<- | []]. reflexivity.
    + intros x [<- | []]. discriminate.
  - apply (proj2 (first_greatest_wins tied_state []
                    [(Py.KStr "alice", mkContributor (5 # 2) 1 1 0 0 [738949]);
                     (Py.KStr "bob", mkContributor (5 # 2) 1 1 0 0 [738950])]
                    (Py.KStr "carol") (mkContributor 1 0 1 0 0 [738949])
                    eq_refl)).
    + intros x [].
    + intros x [<- | [<- | []]]; simpl; lia.
Defined.

(** ** The badge map *)

Lemma award_entries (K : list Py.key) (k : Py.key) (label : string)
  (badges : dict (list string)) :
  In k K ->
  Forall (fun kv => snd kv <> [] /\ In (fst kv) K) badges ->
  Forall (fun kv => snd kv <> [] /\ In (fst kv) K) (award k label badges).
Proof.
  intros Hk. unfold award.
  induction 1 as [|[k' l] badges [Hl Hin] Hrest IH]; cbn [Dict.modify].
  - constructor; [|constructor]. split; [discriminate | exact Hk].
  - destruct (Py.key_eqb k k'); constructor; auto.
    split; [|exact Hin]. cbn [snd]. now destruct l.
Qed.

Lemma award_consistent_entries (K : list Py.key) (cs : dict Contributor)
  (badges : dict (list string)) :
  incl (Dict.keys cs) K ->
  NoDup (Dict.keys badges) ->
  Forall (fun kv => snd kv <> [] /\ In (fst kv) K) badges ->
  NoDup (Dict.keys (award_consistent cs badges))
  /\ Forall (fun kv => snd kv <> [] /\ In (fst kv) K)
       (award_consistent cs badges).
Proof.
  revert badges. induction cs as [|[k data] cs IH]; intros badges Hi N F.
  - now split.
  - cbn [award_consistent]. apply IH.
    + intros x Hx. apply Hi. now right.
    + destruct (3 <=? Z.of_nat (List.length (active_days data)));
        [now apply NoDup_keys_modify | exact N].
    + destruct (3 <=? Z.of_nat (List.length (active_days data)));
        [|exact F].
      apply award_entries; [|exact F]. apply Hi. now left.
Qed.

Lemma assign_badges_entries (st : state) :
  NoDup (Dict.keys (assign_badges st))
  /\ Forall (fun kv => snd kv <> []
                       /\ In (fst kv) (Dict.keys (contributors st)))
       (assign_badges st).
Proof.
  unfold assign_badges.
  destruct (contributors st) as [|p cs]; [split; constructor|].
  cbv zeta. cbn [py_max].
  assert (W : forall {K} (gtb : K -> K -> bool) f,
             In (fst (max_from gtb f p cs)) (Dict.keys (p :: cs)))
    by (intros K gtb f; apply in_map, max_from_In).
  apply (award_consistent_entries (Dict.keys (p :: cs)));
    [apply incl_refl | |].
  - repeat match goal with
           | |- NoDup (Dict.keys (if ?b then _ else _)) => destruct b
           | |- NoDup (Dict.keys (award _ _ _)) => apply NoDup_keys_modify
           end; constructor.
  - repeat match goal with
           | |- Forall _ (if ?b then _ else _) => destruct b
           | |- Forall _ (award _ _ _) => apply award_entries; [apply W|]
           end; constructor.
Qed.

(** X20. The badge map holds contributors only, each once and each
    with at least one badge: a contributor without a badge has no
    entry; and with no contributor the map is empty. *)
Theorem badge_map_entries :
  forall st : state,
    NoDup (Dict.keys (assign_badges st))
    /\ (forall k l, In (k, l) (assign_badges st) ->
          l <> [] /\ In k (Dict.keys (contributors st)))
    /\ assign_badges
         (mkState (stats st) [] (project_tasks st) (stdout st)) = [].
Proof.
  intros st. destruct (assign_badges_entries st) as [N F].
  split; [exact N|]. split; [|reflexivity].
  intros k l H. rewrite Forall_forall in F. exact (F (k, l) H).
Qed.

(** ** The order of the contributors in the report *)

Lemma insert_by_kpi_perm (x : Py.key * Contributor)
  (l : list (Py.key * Contributor)) :
  Permutation (insert_by_kpi x l) (x :: l).
Proof.
  induction l as [|y l IH]; simpl; [apply Permutation_refl|].
  destruct (Qle_bool (kpi (snd y)) (kpi (snd x))); [apply Permutation_refl|].
  apply perm_trans with (y :: x :: l); [now apply perm_skip | apply perm_swap].
Qed.

Lemma insert_by_kpi_hd (a x : Py.key * Contributor)
  (l : list (Py.key * Contributor)) :
  kpi_descending a x -> HdRel kpi_descending a l ->
  HdRel kpi_descending a (insert_by_kpi x l).
Proof.
  intros Hx Hl. destruct l as [|y l]; simpl; [now constructor|].
  destruct (Qle_bool (kpi (snd y)) (kpi (snd x))); constructor;
    [exact Hx | now inversion Hl].
Qed.

Lemma insert_by_kpi_sorted (x : Py.key * Contributor)
  (l : list (Py.key * Contributor)) :
  Sorted kpi_descending l -> Sorted kpi_descending (insert_by_kpi x l).
Proof.
  induction 1 as [|y l Hs IH Hh]; simpl; [repeat constructor|].
  destruct (Qle_bool (kpi (snd y)) (kpi (snd x))) eqn:E.
  - constructor; [now constructor|]. constructor.
    now apply Qle_bool_iff.
  - constructor; [exact IH|]. apply insert_by_kpi_hd; [|exact Hh].
    unfold kpi_descending. apply Qlt_le_weak, Qnot_le_lt.
    intros L. apply Qle_bool_iff in L. congruence.
Qed.

Lemma insert_by_kpi_same_kpi (q : Q) (x : Py.key * Contributor)
  (l : list (Py.key * Contributor)) :
  filter (fun y => Qeq_bool (kpi (snd y)) q) (insert_by_kpi x l)
  = filter (fun y => Qeq_bool (kpi (snd y)) q) (x :: l).
Proof.
  induction l as [|y l IH]; [reflexivity|].
  cbn [insert_by_kpi].
  destruct (Qle_bool (kpi (snd y)) (kpi (snd x))) eqn:E; [reflexivity|].
  cbn [filter] in *. rewrite IH.
  destruct (Qeq_bool (kpi (snd x)) q) eqn:Ex; [|reflexivity].
  destruct (Qeq_bool (kpi (snd y)) q) eqn:Ey; [|reflexivity].
  exfalso. apply Qeq_bool_iff in Ex, Ey.
  assert (L : (kpi (snd y) <= kpi (snd x))%Q) by (rewrite Ex, Ey; apply Qle_refl).
  apply Qle_bool_iff in L. congruence.
Qed.

(** X21. The report lists the contributors in a stable descending order
    of KPI: the listing holds the same contributors, each KPI in it is
    at least the next one, and the contributors that have the same KPI
    come in the order of the dictionary. *)
Theorem report_order :
  forall cs : dict Contributor,
    Permutation (sorted_by_kpi cs) cs
    /\ Sorted kpi_descending (sorted_by_kpi cs)
    /\ forall q : Q,
         filter (fun y => Qeq_bool (kpi (snd y)) q) (sorted_by_kpi cs)
         = filter (fun y => Qeq_bool (kpi (snd y)) q) cs.
Proof.
  intros cs. unfold sorted_by_kpi. split; [|split].
  - induction cs as [|x cs IH]; simpl; [constructor|].
    apply perm_trans with (x :: fold_right insert_by_kpi [] cs);
      [apply insert_by_kpi_perm | now apply perm_skip].
  - induction cs as [|x cs IH]; simpl; [constructor|].
    now apply insert_by_kpi_sorted.
  - intros q. induction cs as [|x cs IH]; [reflexivity|].
    cbn [fold_right]. rewrite insert_by_kpi_same_kpi.
    cbn [filter]. now rewrite IH.
Qed.

(** The contributors of the example with a tie: alice and bob, who have
    the same KPI, stay in their order, before carol. *)
Example report_order_tied :
  map fst (sorted_by_kpi (contributors tied_state))
  = [Py.KStr "alice"; Py.KStr "bob"; Py.KStr "carol"].
Proof. reflexivity. Qed.

(** ** The statuses of a board item *)

(** X22. For field values that are objects with an optional name and
    an optional text, the status list is made, in order, of the
    lower-cased name of each field that has a name that is not empty,
    else of its lower-cased text when that is not empty; a field with
    neither gives nothing, and the loop does not raise. *)
Theorem collect_statuses_of_fields :
  forall (fields : list (option string * option string))
         (status_list : list string),
    collect_statuses (map (fun p => field_value (fst p) (snd p)) fields)
      status_list
    = Ok (status_list
          ++ flat_map (fun p => status_of (fst p) (snd p)) fields)%list.
Proof.
  induction fields as [|[name text] fields IH]; intros acc.
  - cbn. now rewrite List.app_nil_r.
  - cbn [map flat_map fst snd collect_statuses].
    destruct name as [[|c n]|], text as [[|d t]|];
      cbn [field_value app Py.get Py.assoc String.eqb Ascii.eqb Bool.eqb
             rbind Py.truthy negb Py.str_lower status_of];
      rewrite IH; try rewrite <- List.app_assoc; reflexivity.
Qed.

(** ** The pattern of the KPI value *)

Lemma take_digits_spec (s d r : string) :
  PyStr.take_digits s = (d, r) -> s = d ++ r /\ all_digits d = true.
Proof.
  revert d r. induction s as [|c s IH]; intros d r; cbn [PyStr.take_digits].
  - intros [= <- <-]. now split.
  - destruct (PyStr.is_digit c) eqn:E.
    + destruct (PyStr.take_digits s) as [d0 r0].
      intros [= <- <-]. destruct (IH d0 r0 eq_refl) as [-> H].
      split; [reflexivity|]. cbn [all_digits]. now rewrite E, H.
    + intros [= <- <-]. now split.
Qed.

Lemma bold_decimal_at_stars (s g : string) :
  Re.bold_decimal_at s = Some g -> exists r, s = String "*" (String "*" r).
Proof.
  intros H. destruct s as [|c1 [|c2 r]]; [discriminate | |].
  - destruct c1 as [[] [] [] [] [] [] [] []]; discriminate.
  - destruct c1 as [[] [] [] [] [] [] [] []]; try discriminate.
    destruct c2 as [[] [] [] [] [] [] [] []]; try discriminate.
    now exists r.
Qed.

Lemma bold_decimal_at_sound (s g : string) :
  Re.bold_decimal_at s = Some g ->
  decimal_shape g /\ exists post, s = "**" ++ g ++ "**" ++ post.
Proof.
  intros H. destruct (bold_decimal_at_stars s g H) as [r ->].
  revert H. cbn [Re.bold_decimal_at].
  destruct (PyStr.take_digits r) as [d r1] eqn:T.
  apply take_digits_spec in T as [-> Hd].
  destruct d as [|c d]; [discriminate|].
  assert (Plain : (if PyStr.startswith "**" r1 then Some (String c d) else None)
                  = Some g ->
                  decimal_shape g
                  /\ exists post,
                       String "*" (String "*" (String c d ++ r1))
                       = "**" ++ g ++ "**" ++ post).
  { destruct (PyStr.startswith "**" r1) eqn:S; [|discriminate].
    intros [= <-]. apply startswith_split in S as [post ->].
    split; [exists (String c d); repeat split; [exact Hd | discriminate | now left]|].
    exists post. reflexivity. }
  destruct r1 as [|x r2]; [exact Plain|].
  destruct (Ascii.eqb x ".") eqn:Ex;
    [apply Ascii.eqb_eq in Ex; subst x
    |destruct x as [[] [] [] [] [] [] [] []]; try exact Plain; discriminate].
  destruct (PyStr.take_digits r2) as [f r3] eqn:T2.
  apply take_digits_spec in T2 as [-> Hf].
  destruct f as [|y f]; [discriminate|].
  destruct (PyStr.startswith "**" r3) eqn:S; [|discriminate].
  intros [= <-]. apply startswith_split in S as [post ->].
  split.
  - exists (String c d). repeat split; [exact Hd | discriminate|].
    right. exists (String y f). repeat split; [exact Hf | discriminate].
  - exists post. cbn [append]. do 3 f_equal.
    rewrite !append_assoc. reflexivity.
Qed.

Lemma bold_decimal_at_complete (g post : string) :
  decimal_shape g ->
  Re.bold_decimal_at ("**" ++ g ++ "**" ++ post) = Some g.
Proof.
  intros (d & Hd & Hn & [-> | (f & Hf & Hfn & ->)]).
  - cbn [append Re.bold_decimal_at].
    rewrite (take_digits_app d (String "*" (String "*" post)) Hd)
      by reflexivity.
    destruct d as [|c d]; [contradiction|].
    now rewrite startswith_stars.
  - rewrite !append_assoc. cbn [append Re.bold_decimal_at].
    rewrite (take_digits_app d
               (String "." (f ++ String "*" (String "*" post))) Hd)
      by reflexivity.
    destruct d as [|c d]; [contradiction|].
    rewrite (take_digits_app f (String "*" (String "*" post)) Hf)
      by reflexivity.
    destruct f as [|y f]; [contradiction|].
    now rewrite startswith_stars.
Qed.

(** X23. The search for the bold decimal is sound and complete: what it
    returns is a run of digits, or digits, a dot and digits, that stands
    in the line between two pairs of stars; and it returns a value on
    every line that holds such a decimal between two pairs of stars. *)
Theorem search_bold_decimal_spec :
  forall line : string,
    (forall g, Re.search_bold_decimal line = Some g ->
       decimal_shape g
       /\ exists pre post, line = pre ++ "**" ++ g ++ "**" ++ post)
    /\ (forall pre g post,
          line = pre ++ "**" ++ g ++ "**" ++ post -> decimal_shape g ->
          Re.search_bold_decimal line <> None).
Proof.
  intros line. split.
  - induction line as [|c line IH]; intros g.
    + cbn. discriminate.
    + cbn [Re.search_bold_decimal].
      destruct (Re.bold_decimal_at (String c line)) as [g'|] eqn:E.
      * intros [= <-]. apply bold_decimal_at_sound in E as [Hs [post ->]].
        split; [exact Hs|]. exists "", post. reflexivity.
      * intros H. destruct (IH g H) as [Hs (pre & post & ->)].
        split; [exact Hs|]. exists (String c pre), post. reflexivity.
  - intros pre g post -> Hs.
    induction pre as [|c pre IH].
    + cbn [append]. change (String "*" (String "*" (g ++ "**" ++ post)))
        with ("**" ++ g ++ "**" ++ post).
      rewrite (search_bold_decimal_hit _ g); [discriminate|].
      now apply bold_decimal_at_complete.
    + cbn [append Re.search_bold_decimal].
      destruct (Re.bold_decimal_at _); [discriminate | exact IH].
Qed.

(** ** The issue stage and the task stage as a whole *)

Lemma issue_stats_counts (o c b : bool) (s : Stats) :
  stats_issues_opened (issue_stats o c b s)
  = stats_issues_opened s + (if o then 1 else 0)
  /\ stats_issues_closed (issue_stats o c b s)
     = stats_issues_closed s + (if c then 1 else 0)
  /\ stats_bugs_closed (issue_stats o c b s)
     = stats_bugs_closed s + (if c && b then 1 else 0).
Proof. destruct o, c, b; simpl; repeat split; lia. Qed.

(** X24. On a list of issues, a run of [get_issues] that returns has
    credited one action to a contributor for each issue that it has
    counted as closed, and has counted no more issues as opened, and no
    more as closed, than the list holds; a run that raises has credited
    no more actions than it has counted closed issues. *)
Theorem get_issues_counts :
  forall (now : Z) (parse : string -> option datetime) (issues : list json)
         (st : state),
    let n := Z.of_nat (List.length issues) in
    let st' := fst (get_issues now parse (JList issues) st) in
    let opened :=
      stats_issues_opened (stats st') - stats_issues_opened (stats st) in
    let closed :=
      stats_issues_closed (stats st') - stats_issues_closed (stats st) in
    let credited :=
      sum_of total_actions (contributors st')
      - sum_of total_actions (contributors st) in
    0 <= opened <= n /\ 0 <= credited <= closed /\ closed <= n
    /\ match snd (get_issues now parse (JList issues) st) with
       | Ok _ => credited = closed
       | Raise _ => True
       end.
Proof.
  intros now parse issues.
  unfold get_issues, bind, lift. cbn [Py.iter].
  induction issues as [|issue issues IH]; intros st.
  - simpl. lia.
  - cbn [for_each]. unfold bind.
    destruct (count_issue_cases now parse issue st)
      as [[e E] | [(o & E) | [(o & b & e & E) | (o & b & k & E)]]];
      rewrite E; clear E.
    + cbn [fst snd List.length]. lia.
    + specialize (IH (mkState (issue_stats o false false (stats st))
                        (contributors st) (project_tasks st) (stdout st))).
      destruct (issue_stats_counts o false false (stats st)) as (H1 & H2 & _).
      cbn [fst snd List.length stats contributors] in *.
      rewrite H1, H2 in IH.
      destruct (snd (for_each issues (count_issue now parse) _));
        destruct o; lia.
    + destruct (issue_stats_counts o true b (stats st)) as (H1 & H2 & _).
      cbn [fst snd List.length stats contributors].
      rewrite H1, H2. destruct o; lia.
    + specialize (IH (mkState (issue_stats o true b (stats st))
                        (Dict.modify default_contributor k issue_credit
                           (contributors st))
                        (project_tasks st) (stdout st))).
      destruct (issue_stats_counts o true b (stats st)) as (H1 & H2 & _).
      cbn [fst snd List.length stats contributors] in *.
      rewrite H1, H2, sum_of_modify in IH by reflexivity.
      cbn [issue_credit total_actions] in IH.
      destruct (snd (for_each issues (count_issue now parse) _));
        destruct o; lia.
Qed.

(** X25. On an answer with the nested shape and a list of items,
    [get_project_tasks] appends no more tasks than there are items, and
    counts no more completed tasks than it appends. *)
Theorem get_project_tasks_counts :
  forall (now : Z) (parse : string -> option datetime)
         (strftime : Z -> string) (items : list json) (st : state),
    let st' :=
      fst (get_project_tasks now parse strftime (project_response items) st) in
    let appended :=
      Z.of_nat (List.length (project_tasks st'))
      - Z.of_nat (List.length (project_tasks st)) in
    let completed :=
      stats_tasks_completed (stats st') - stats_tasks_completed (stats st) in
    0 <= completed <= appended
    /\ appended <= Z.of_nat (List.length items).
Proof.
  intros now parse strftime items st.
  rewrite get_project_tasks_response.
  destruct (try_except_print_stats
              (for_each items (collect_task now parse strftime)) st)
    as (E1 & E2 & _).
  cbv zeta. rewrite E1, E2. clear E1 E2.
  revert st. induction items as [|item items IH]; intros st.
  - simpl. lia.
  - cbn [for_each]. unfold bind.
    destruct (collect_task_cases now parse strftime item st)
      as [[e E] | [E | (done & t & E)]]; rewrite E; clear E.
    + cbn [fst List.length]. lia.
    + specialize (IH st). cbn [fst List.length]. lia.
    + specialize (IH (mkState (if done then incr_tasks_completed (stats st)
                               else stats st)
                        (contributors st) (project_tasks st ++ [t])
                        (stdout st))).
      cbn [fst List.length stats project_tasks] in *.
      rewrite length_app in IH. cbn [List.length] in IH.
      destruct done; cbn [incr_tasks_completed stats_tasks_completed] in IH;
        lia.
Qed.


